(** * Cache-aside handlers and the fixed-window rate limiter of [Redis&Caching.js]

    A shallow embedding of the Express handlers of [src/Redis&Caching.js]
    ([app.get("/products/:id")], [router.get("/:id")], [app.get("/news")]
    and the [rateLimiter] middleware) over an executable model of the Redis
    commands they issue, followed by the properties of the cache-aside
    protocol and of the limiter. *)

From Stdlib Require Import ZArith String Ascii List Lia.
From Stdlib Require Import DecimalString DecimalZ DecimalPos DecimalFacts.
From stdpp Require Import base option gmap strings list fin_maps.

Set Warnings "-register-all".

Local Open Scope string_scope.
Local Open Scope Z_scope.

(** ** Decimal rendering of integers

    Redis keeps every value as a string; [INCR] reads the string as a decimal
    integer and writes the successor back in decimal. *)

Definition string_of_Z (z : Z) : string := NilZero.string_of_int (Z.to_int z).

Definition Z_of_string (s : string) : option Z :=
  Z.of_int <$> NilZero.int_of_string s.

(** ** JavaScript values that travel through the handlers *)

Inductive json : Type :=
  | JNull
  | JBool (b : bool)
  | JNum (n : Z)
  | JStr (s : string)
  | JArr (items : list json)
  | JObj (fields : list (string * json)).

(** [if (v)] / [!v] on a JavaScript value. *)
Definition js_truthy (v : json) : bool :=
  match v with
  | JNull => false
  | JBool b => b
  | JNum n => negb (n =? 0)
  | JStr s => negb (String.eqb s "")
  | JArr _ | JObj _ => true
  end.

(** [if (cached)] where [cached] is what ioredis' [get] resolves to:
    [null] for a missing key, otherwise the stored string. *)
Definition truthy_reply (r : option string) : bool :=
  match r with
  | None => false
  | Some s => negb (String.eqb s "")
  end.

(** Field access on an object literal. *)
Fixpoint field (name : string) (fs : list (string * json)) : option json :=
  match fs with
  | [] => None
  | (k, v) :: rest => if String.eqb k name then Some v else field name rest
  end.

Definition get_field (name : string) (v : json) : option json :=
  match v with
  | JObj fs => field name fs
  | _ => None
  end.

(** ** The key-value servers

    An entry is the stored string together with the absolute time (in
    seconds) at which the server drops it; [None] is a key without expiry. *)

Record Entry : Type := mkEntry {
  payload : string;
  expire_at : option Z
}.

Inductive Server : Type :=
  | Local (port : Z)
  | Upstash.

#[global] Instance Server_eq_dec : EqDecision Server.
Proof. solve_decision. Defined.

(** The three client objects of the file. *)
Inductive Client : Type :=
  | redis    (* [new Redis()], also [import redis from "../redisClient.js"] *)
  | redisr   (* [new Redis(process.env.REDIS_PORT || 6379)] *)
  | redis2.  (* [new Redis({ url: UPSTASH_REDIS_REST_URL, ... })] *)

#[global] Instance Client_eq_dec : EqDecision Client.
Proof. solve_decision. Defined.

(** Commands sent to a server, and calls to the slow source of truth, in the
    order they are issued. *)
Inductive Event : Type :=
  | EGet (c : Client) (key : string)
  | ESet (c : Client) (key value : string) (ex : option Z)
  | EIncr (c : Client) (key : string)
  | EExpire (c : Client) (key : string) (seconds : Z)
  | EFindById (id : string)      (* [Product.findById(id)] *)
  | EFakeNews.                   (* [getFakeNewsFromDb()] *)

Record World : Type := mkWorld {
  stores : Server -> gmap string Entry;
  now : Z;                       (* wall clock, seconds *)
  REDIS_PORT : option Z;         (* [process.env.REDIS_PORT] *)
  faults : list (option string); (* outcome planned for each coming command:
                                    [Some msg] makes it reject with [msg] *)
  trace : list Event             (* most recent first *)
}.

Definition server_of (w : World) (c : Client) : Server :=
  match c with
  | redis => Local 6379
  | redisr => Local (default 6379 (REDIS_PORT w))
  | redis2 => Upstash
  end.

Definition set_store (sts : Server -> gmap string Entry) (sv : Server)
    (st : gmap string Entry) : Server -> gmap string Entry :=
  fun sv' => if decide (sv' = sv) then st else sts sv'.

(** ** Awaited computations: state passing with rejection *)

Inductive Result (A : Type) : Type :=
  | Ok (a : A)
  | Throw (msg : string).
Arguments Ok {A} a.
Arguments Throw {A} msg.

Definition M (A : Type) : Type := World -> Result A * World.

Definition ret {A} (a : A) : M A := fun w => (Ok a, w).

Definition bind {A B} (m : M A) (k : A -> M B) : M B :=
  fun w =>
    match m w with
    | (Ok a, w') => k a w'
    | (Throw msg, w') => (Throw msg, w')
    end.

(** [try { m } catch (err) { h err }] *)
Definition try_catch {A} (m : M A) (h : string -> M A) : M A :=
  fun w =>
    match m w with
    | (Ok a, w') => (Ok a, w')
    | (Throw msg, w') => h msg w'
    end.

(** An awaited promise that settles to [r] without touching the servers. *)
Definition lift {A} (r : Result A) : M A := fun w => (r, w).

(** A call to the source of truth is noted in the trace. *)
Definition note (ev : Event) (w : World) : World :=
  {| stores := stores w; now := now w; REDIS_PORT := REDIS_PORT w;
     faults := faults w; trace := ev :: trace w |}.

Definition record (ev : Event) : M unit := fun w => (Ok tt, note ev w).

Declare Scope await_scope.
Delimit Scope await_scope with await.
Notation "x <- m ;; k" := (bind m (fun x => k))
  (at level 100, m at next level, right associativity) : await_scope.
Notation "m ;;; k" := (bind m (fun _ => k))
  (at level 100, right associativity) : await_scope.
Local Open Scope await_scope.

(** ** Redis commands *)

Definition live (t : Z) (e : Entry) : bool :=
  match expire_at e with
  | Some d => t <? d
  | None => true
  end.

Definition lookup_live (st : gmap string Entry) (t : Z) (k : string)
    : option Entry :=
  match st !! k with
  | Some e => if live t e then Some e else None
  | None => None
  end.

(** The fault planned for the next command, if any. *)
Definition planned (w : World) : option string := default None (head (faults w)).

(** A command leaves the client: it is recorded and uses up one plan. *)
Definition issue (ev : Event) (w : World) : World :=
  {| stores := stores w; now := now w; REDIS_PORT := REDIS_PORT w;
     faults := tail (faults w); trace := ev :: trace w |}.

Definition put_store (sv : Server) (st : gmap string Entry) (w : World) : World :=
  {| stores := set_store (stores w) sv st; now := now w;
     REDIS_PORT := REDIS_PORT w; faults := faults w; trace := trace w |}.

(** Every command is recorded, then either rejects as planned (leaving the
    server untouched) or runs against the client's server. *)
Definition command {A} (c : Client) (ev : Event)
    (run : gmap string Entry -> Z -> Result A * gmap string Entry) : M A :=
  fun w =>
    match planned w with
    | Some msg => (Throw msg, issue ev w)
    | None =>
      let sv := server_of w c in
      let '(r, st') := run (stores w sv) (now w) in
      (r, put_store sv st' (issue ev w))
    end.

(** A command that only reads. *)
Definition query {A} (c : Client) (ev : Event)
    (run : gmap string Entry -> Z -> Result A) : M A :=
  fun w =>
    match planned w with
    | Some msg => (Throw msg, issue ev w)
    | None => (run (stores w (server_of w c)) (now w), issue ev w)
    end.

(** [GET key] *)
Definition redis_get (c : Client) (key : string) : M (option string) :=
  query c (EGet c key) (fun st t => Ok (payload <$> lookup_live st t key)).

(** [SET key value [EX seconds]] *)
Definition redis_set (c : Client) (key value : string) (ex : option Z) : M unit :=
  command c (ESet c key value ex)
    (fun st t =>
       match ex with
       | Some secs =>
         if secs <=? 0 then (Throw "ERR invalid expire time in 'set' command", st)
         else (Ok tt, <[key := mkEntry value (Some (t + secs))]> st)
       | None => (Ok tt, <[key := mkEntry value None]> st)
       end).

(** [INCR key]: a missing (or expired) key counts from 0 and is created
    without expiry; an existing key keeps its expiry. *)
Definition redis_incr (c : Client) (key : string) : M Z :=
  command c (EIncr c key)
    (fun st t =>
       match lookup_live st t key with
       | None => (Ok 1, <[key := mkEntry (string_of_Z 1) None]> st)
       | Some e =>
         match Z_of_string (payload e) with
         | Some n =>
           (Ok (n + 1), <[key := mkEntry (string_of_Z (n + 1)) (expire_at e)]> st)
         | None => (Throw "ERR value is not an integer or out of range", st)
         end
       end).

(** [EXPIRE key seconds]: answers 1 when the timeout was set, 0 when the key
    does not exist; a non-positive timeout deletes the key. *)
Definition redis_expire (c : Client) (key : string) (seconds : Z) : M Z :=
  command c (EExpire c key seconds)
    (fun st t =>
       match lookup_live st t key with
       | None => (Ok 0, st)
       | Some e =>
         if seconds <=? 0 then (Ok 1, delete key st)
         else (Ok 1, <[key := mkEntry (payload e) (Some (t + seconds))]> st)
       end).

(** ** What a handler does with [res] and [next] *)

Inductive Reply : Type :=
  | Json (status : Z) (body : json)   (* [res.status(status).json(body)] *)
  | Next.                             (* [next()] *)

(** ** The rate limiter

    [rateLimiterWith w m] is the middleware with its window and threshold
    named; the source fixes them to 60 seconds and 10 requests. *)

Definition rateLimiterWith (windowSeconds maxRequests : Z) (ip : string) : M Reply :=
  let key := ("rate:" ++ ip)%string in
  count <- redis_incr redis key ;;
  (if count =? 1 then redis_expire redis key windowSeconds ;;; ret tt
   else ret tt) ;;;
  if count >? maxRequests then
    ret (Json 429 (JObj [("error", JStr "Too many requests")]))
  else ret Next.

Definition rateLimiter : string -> M Reply := rateLimiterWith 60 10.

(** ** Requests arriving over time *)

Definition at_time (t : Z) (w : World) : World :=
  {| stores := stores w; now := t; REDIS_PORT := REDIS_PORT w;
     faults := faults w; trace := trace w |}.

(** The same handler invoked once at each of the given instants. *)
Fixpoint serve (h : M Reply) (times : list Z) (w : World)
    : list (Result Reply) * World :=
  match times with
  | [] => ([], w)
  | t :: ts =>
    let '(r, w1) := h (at_time t w) in
    let '(rs, w2) := serve h ts w1 in
    (r :: rs, w2)
  end.

Definition fresh_world : World :=
  {| stores := fun _ => ∅; now := 0; REDIS_PORT := None;
     faults := []; trace := [] |}.

(** ** The cache-aside handlers

    [JSON.stringify] / [JSON.parse] and the model call [Product.findById]
    come from outside the file; the handlers are written over them.
    [JSON_parse] answers [Throw] where [JSON.parse] raises a [SyntaxError];
    [Product_findById] answers [Ok JNull] where Mongoose resolves to [null]
    and [Throw] where the query rejects. *)

Section Handlers.

Variable JSON_stringify : json -> string.
Variable JSON_parse : string -> Result json.
Variable Product_findById : string -> Result json.

(** [await Product.findById(id)] *)
Definition findById (id : string) : M json :=
  record (EFindById id) ;;; lift (Product_findById id).

(** [JSON.parse(cached)]; a [null] argument is first converted to the
    string "null". *)
Definition parse_reply (cached : option string) : M json :=
  match cached with
  | Some s => lift (JSON_parse s)
  | None => lift (JSON_parse "null")
  end.

(** [app.get("/products/:id", ...)]: no [try]/[catch], so a rejected
    [await] leaves the handler as [Throw]. *)
Definition get_products_id (id : string) : M Reply :=
  let cacheKey := ("product:" ++ id)%string in
  cached <- redis_get redis cacheKey ;;
  if truthy_reply cached then
    v <- parse_reply cached ;;
    ret (Json 200 v)
  else
    product <- findById id ;;
    redis_set redis cacheKey (JSON_stringify product) (Some 3600) ;;;
    ret (Json 200 product).

(** [router.get("/:id", ...)] *)
Definition router_get_id (id : string) : M Reply :=
  let cacheKey := ("product:" ++ id)%string in
  try_catch
    (cached <- redis_get redis cacheKey ;;
     if truthy_reply cached then
       data <- parse_reply cached ;;
       ret (Json 200 (JObj [("source", JStr "cache"); ("data", data)]))
     else
       product <- findById id ;;
       if negb (js_truthy product) then
         ret (Json 404 (JObj [("message", JStr "Not found")]))
       else
         redis_set redisr cacheKey (JSON_stringify product) (Some 3600) ;;;
         ret (Json 200 (JObj [("source", JStr "db"); ("data", product)])))
    (fun err => ret (Json 500 (JObj [("error", JStr err)]))).

(** [getFakeNewsFromDb] *)
Definition fake_news : json :=
  JArr [ JObj [("id", JNum 1); ("title", JStr "News 1");
               ("content", JStr "Lorem ipsum")];
         JObj [("id", JNum 2); ("title", JStr "News 2");
               ("content", JStr "Dolor sit amet")] ].

Definition getFakeNewsFromDb : M json :=
  record EFakeNews ;;; ret fake_news.

(** [app.get("/news", ...)]: the lookup goes through [redis], the write
    through the Upstash client [redis2], which serialises the value it is
    given. The [console.error] of the [catch] block is not observable in a
    reply and is left out. *)
Definition get_news : M Reply :=
  try_catch
    (let cacheKey := "news:all" in
     cachedNews <- redis_get redis cacheKey ;;
     if truthy_reply cachedNews then
       ret (Json 200 (JObj [("success", JBool true); ("source", JStr "cache");
                            ("data", JStr (default "" cachedNews))]))
     else
       news <- getFakeNewsFromDb ;;
       redis_set redis2 cacheKey (JSON_stringify news) (Some 600) ;;;
       ret (Json 200 (JObj [("success", JBool true); ("source", JStr "db");
                            ("data", news)])))
    (fun error =>
       ret (Json 500 (JObj [("success", JBool false);
                            ("message", JStr "Server error")]))).

End Handlers.

(** ** Vocabulary of the statements *)

(** The counter key of a client address ([`rate:${ip}`]). *)
Definition rate_key (ip : string) : string := ("rate:" ++ ip)%string.

(** The reply of the limiter when it turns a request away. *)
Definition too_many_requests : Reply :=
  Json 429 (JObj [("error", JStr "Too many requests")]).

(** The reply of the limiter to the call that brought the counter to [n]. *)
Definition verdict (maxRequests n : Z) : Reply :=
  if n >? maxRequests then too_many_requests else Next.

(** The replies to the calls that bring the counter to [n + 1], ...,
    [n + len]. *)
Definition verdicts (maxRequests n : Z) (len : nat) : list (Result Reply) :=
  (fun c => Ok (verdict maxRequests c)) <$> seqZ (n + 1) (Z.of_nat len).

(** The counter of [ip] on the server behind [redis]. *)
Definition counter (w : World) (ip : string) : option Entry :=
  stores w (Local 6379) !! rate_key ip.

(** No live counter for [ip] at time [t]: a window is about to start. *)
Definition no_counter (w : World) (ip : string) (t : Z) : Prop :=
  lookup_live (stores w (Local 6379)) t (rate_key ip) = None.

(** Number of [EXPIRE] commands sent for [key] so far. *)
Definition is_expire (key : string) (ev : Event) : bool :=
  match ev with
  | EExpire _ k _ => String.eqb k key
  | _ => false
  end.

Definition count_expire (key : string) (tr : list Event) : nat :=
  length (filter (fun ev => is_expire key ev = true) tr).

(** A reply that carries a retry hint of at most [wnd] seconds. *)
Definition carries_retry_after (wnd : Z) (r : Reply) : Prop :=
  exists status body n,
    r = Json status body /\
    get_field "retryAfterSeconds" body = Some (JNum n) /\
    0 <= n <= wnd.

(** The cache key of a product ([`product:${id}`]). *)
Definition product_key (id : string) : string := ("product:" ++ id)%string.

(** What [redis.get(key)] resolves to in [w] when it is not rejected. *)
Definition cached_at (w : World) (key : string) : option string :=
  payload <$> lookup_live (stores w (Local 6379)) (now w) key.

(** Calls made to the source of truth so far. *)
Definition is_db_call (ev : Event) : bool :=
  match ev with
  | EFindById _ | EFakeNews => true
  | _ => false
  end.

Definition db_calls (tr : list Event) : nat :=
  length (filter (fun ev => is_db_call ev = true) tr).

(** A [SET] that carries [EX ttl] with a positive [ttl]. *)
Definition set_has_ttl (ev : Event) : Prop :=
  match ev with
  | ESet _ _ _ ex => exists ttl, ex = Some ttl /\ 0 < ttl
  | _ => True
  end.

(** From [w] to [w'], every [SET] sent carried a positive TTL and every
    entry that was written or replaced expires at a later instant. *)
Definition writes_with_ttl (w w' : World) : Prop :=
  (exists sent, trace w' = (sent ++ trace w)%list /\ Forall set_has_ttl sent) /\
  (forall sv k e,
     stores w' sv !! k = Some e ->
     stores w sv !! k = Some e \/
     exists ttl, 0 < ttl /\ expire_at e = Some (now w + ttl)).

(** A computation started in a world reached from [w0] within the same
    instant keeps [writes_with_ttl] from [w0]. *)
Definition keeps_ttl {A} (w0 : World) (m : M A) : Prop :=
  forall w,
    now w = now w0 /\ writes_with_ttl w0 w ->
    now (snd (m w)) = now w0 /\ writes_with_ttl w0 (snd (m w)).

(** The read of [key] fails with [msg]: [get] is rejected, or the string it
    resolves to is truthy and does not parse. *)
Definition read_fails (JSON_parse : string -> Result json) (w : World)
    (key msg : string) : Prop :=
  planned w = Some msg \/
  (planned w = None /\
   exists s, cached_at w key = Some s /\ s <> "" /\ JSON_parse s = Throw msg).

(** The reply hands [v] to the caller, bare or as the [data] of an envelope. *)
Definition returns_value (v : json) (r : Result Reply) : Prop :=
  r = Ok (Json 200 v) \/
  exists body, r = Ok (Json 200 body) /\ get_field "data" body = Some v.

(** The run consulted the source of truth for [id] and handed some value to
    the caller: what a cache miss looks like from outside. *)
Definition served_by_compute (id : string) (out : Result Reply * World) : Prop :=
  In (EFindById id) (trace (snd out)) /\ exists v, returns_value v (fst out).

(** The reply of [app.get("/news")] when it has just computed the feed. *)
Definition news_from_db : Reply :=
  Json 200 (JObj [("success", JBool true); ("source", JStr "db"); ("data", fake_news)]).

(** The reply of the [catch] block of [app.get("/news")]. *)
Definition server_error : Reply :=
  Json 500 (JObj [("success", JBool false); ("message", JStr "Server error")]).

(** Empty servers at time 0 with a plan of faults for the coming commands. *)
Definition world_with_faults (plan : list (option string)) : World :=
  {| stores := fun _ => ∅; now := 0; REDIS_PORT := None;
     faults := plan; trace := [] |}.

(** Time 0, the server behind [redis] holding [value] under [key] until
    [deadline]. *)
Definition world_holding (key value : string) (deadline : Z) : World :=
  {| stores := set_store (fun _ => ∅) (Local 6379)
                 {[ key := mkEntry value (Some deadline) ]};
     now := 0; REDIS_PORT := None; faults := []; trace := [] |}.

(** A sample document. *)
Definition sample_product : json :=
  JObj [("name", JStr "Mubarak"); ("role", JStr "admin")].

(** ** A codec for JSON atoms

    [null], [true], [false] and integers, written and read the way
    [JSON.stringify] and [JSON.parse] do; enough to run the handlers on
    sample data. Composite values are written the way string conversion
    writes an object and are not read back. *)

Definition atom_stringify (v : json) : string :=
  match v with
  | JNull => "null"
  | JBool true => "true"
  | JBool false => "false"
  | JNum n => string_of_Z n
  | _ => "[object Object]"
  end.

Definition atom_parse (s : string) : Result json :=
  if String.eqb s "null" then Ok JNull
  else if String.eqb s "true" then Ok (JBool true)
  else if String.eqb s "false" then Ok (JBool false)
  else match Z_of_string s with
       | Some n => Ok (JNum n)
       | None => Throw "SyntaxError: Unexpected token"
       end.

(** ** Invalidation

    [DEL key] answers the number of keys removed. Like every command it uses
    up one planned outcome; it is not one of the commands of the handlers,
    and the trace, which the statements about the handlers read, does not
    list it. *)

Definition consume (w : World) : World :=
  {| stores := stores w; now := now w; REDIS_PORT := REDIS_PORT w;
     faults := tail (faults w); trace := trace w |}.

Definition redis_del (c : Client) (key : string) : M Z :=
  fun w =>
    match planned w with
    | Some msg => (Throw msg, consume w)
    | None =>
      let sv := server_of w c in
      (Ok (match lookup_live (stores w sv) (now w) key with
           | Some _ => 1
           | None => 0
           end),
       put_store sv (delete key (stores w sv)) (consume w))
    end.

(** [await redis.del("product:123")] *)
Definition del_product_123 : M Z := redis_del redis "product:123".

(** ** Requests from several addresses

    The middleware invoked for each request of a list, a request being its
    arrival time and the address it comes from; each reply is kept with the
    address it went to. *)

Fixpoint serve_requests (h : string -> M Reply) (reqs : list (Z * string))
    (w : World) : list (string * Result Reply) * World :=
  match reqs with
  | [] => ([], w)
  | (t, ip) :: rest =>
    let '(r, w1) := h ip (at_time t w) in
    let '(rs, w2) := serve_requests h rest w1 in
    ((ip, r) :: rs, w2)
  end.

(** The arrival times of the requests of [ip], and the replies sent to it. *)
Definition times_of (ip : string) (reqs : list (Z * string)) : list Z :=
  fst <$> filter (fun r => snd r = ip) reqs.

Definition replies_to (ip : string) (rs : list (string * Result Reply))
    : list (Result Reply) :=
  snd <$> filter (fun r => fst r = ip) rs.

(** A computation that leaves every key other than [key] as it is on every
    server, and that meets no fault when none is planned. *)
Definition touches_only {A} (key : string) (m : M A) : Prop :=
  forall w,
    (forall sv k, k <> key -> stores (snd (m w)) sv !! k = stores w sv !! k) /\
    (faults w = [] -> faults (snd (m w)) = []).

(** * Registration ([SOLID.JS])

    The two registration controllers of [SOLID.JS], [registerUser] and its
    refactoring [ImprovedRegisterUser] with [validateRegisterInput],
    [createUser] and [sendWelcome], over a model of what they call: the
    [Roles] and [User] collections, the activity log and the mailer. The
    fields of [req.body] are strings when present. *)

Module Register.

Record UserDoc : Type := mkUser {
  u_id : string;
  u_fullname : string;
  u_email : string;
  u_roleName : string;
  u_password : string
}.

Record Mail : Type := mkMail {
  mail_to : string;
  mail_subject : string;
  mail_text : string;
  mail_html : string
}.

(** One call of [logActivity(userId, action, details, req)]; the request
    object that is passed along is not kept. *)
Record Activity : Type := mkActivity {
  act_user : string;
  act_action : string;
  act_details : string
}.

Record App : Type := mkApp {
  users : list UserDoc;          (* the [User] collection, in insertion order *)
  roles : list string;           (* the [roleName]s of the [Roles] collection *)
  activity : list Activity;      (* most recent last *)
  outbox : list Mail;            (* most recent last *)
  drawn : nat;                   (* random values drawn so far *)
  plan : list (option string)    (* outcome planned for each coming awaited
                                    call: [Some msg] makes it reject *)
}.

Record Body : Type := mkBody {
  fullname : option string;
  email : option string;
  roleName : option string
}.

(** [!field] on a field of the body. *)
Definition absent (field : option string) : bool :=
  match field with
  | None => true
  | Some s => String.eqb s ""
  end.

Definition P (A : Type) : Type := App -> Result A * App.

Definition pret {A} (a : A) : P A := fun st => (Ok a, st).

Definition pthrow {A} (msg : string) : P A := fun st => (Throw msg, st).

Definition pbind {A B} (m : P A) (k : A -> P B) : P B :=
  fun st =>
    match m st with
    | (Ok a, st') => k a st'
    | (Throw msg, st') => (Throw msg, st')
    end.

Definition ptry {A} (m : P A) (h : string -> P A) : P A :=
  fun st =>
    match m st with
    | (Ok a, st') => (Ok a, st')
    | (Throw msg, st') => h msg st'
    end.

Declare Scope app_scope.
Delimit Scope app_scope with app.
Notation "x <- m ;; k" := (pbind m (fun x => k))
  (at level 100, m at next level, right associativity) : app_scope.
Notation "m ;;; k" := (pbind m (fun _ => k))
  (at level 100, right associativity) : app_scope.

Definition next_outcome (st : App) : option string := default None (head (plan st)).

Definition spend (st : App) : App :=
  {| users := users st; roles := roles st; activity := activity st;
     outbox := outbox st; drawn := drawn st; plan := tail (plan st) |}.

(** An awaited call to a collaborator: it rejects as planned, or runs. *)
Definition awaited {A} (run : P A) : P A :=
  fun st =>
    match next_outcome st with
    | Some msg => (Throw msg, spend st)
    | None => run (spend st)
    end.

Definition nl : string := String (ascii_of_nat 10) EmptyString.

Section Controllers.

Variable toLowerCase : string -> string.          (* [String.prototype.toLowerCase] *)
Variable randomHex : nat -> string.               (* [crypto.randomBytes(8).toString("hex")] *)
Variable bcrypt_salt : Z -> nat -> string.        (* [genSalt(rounds)] *)
Variable bcrypt_hash : string -> string -> string.  (* [hash(data, salt)] *)
Variable objectId : list UserDoc -> string.       (* the [_id] given to a new document *)
Variable generateToken : string -> string.

Local Open Scope app_scope.

(** [await Roles.findOne({ roleName })], as the truthiness of its result. *)
Definition Roles_findOne (name : string) : P bool :=
  awaited (fun st => (Ok (bool_decide (name ∈ roles st)), st)).

(** [await User.findOne({ email })] *)
Definition User_findOne (mail : string) : P (option UserDoc) :=
  awaited (fun st =>
    (Ok (List.find (fun u => bool_decide (u_email u = mail)) (users st)), st)).

(** [crypto.randomBytes(8).toString("hex")] *)
Definition randomBytes_hex : P string :=
  fun st =>
    (Ok (randomHex (drawn st)),
     {| users := users st; roles := roles st; activity := activity st;
        outbox := outbox st; drawn := S (drawn st); plan := plan st |}).

(** [await genSalt(rounds)] *)
Definition genSalt (rounds : Z) : P string :=
  awaited (fun st =>
    (Ok (bcrypt_salt rounds (drawn st)),
     {| users := users st; roles := roles st; activity := activity st;
        outbox := outbox st; drawn := S (drawn st); plan := plan st |})).

(** [await hash(data, salt)] *)
Definition hash (data salt : string) : P string :=
  awaited (pret (bcrypt_hash data salt)).

(** [await User.create({ fullname, email, roleName, password })] *)
Definition User_create (name mail role password : string) : P UserDoc :=
  awaited (fun st =>
    let user := mkUser (objectId (users st)) name mail role password in
    (Ok user,
     {| users := (users st ++ [user])%list; roles := roles st;
        activity := activity st; outbox := outbox st; drawn := drawn st;
        plan := plan st |})).

(** [await logActivity(userId, action, details, req)] *)
Definition logActivity (userId action details : string) : P unit :=
  awaited (fun st =>
    (Ok tt,
     {| users := users st; roles := roles st;
        activity := (activity st ++ [mkActivity userId action details])%list;
        outbox := outbox st; drawn := drawn st; plan := plan st |})).

(** [await sendEmail(to, subject, text, html)] *)
Definition sendEmail (to subject text html : string) : P unit :=
  awaited (fun st =>
    (Ok tt,
     {| users := users st; roles := roles st; activity := activity st;
        outbox := (outbox st ++ [mkMail to subject text html])%list;
        drawn := drawn st; plan := plan st |})).

(** The reply of both controllers to a successful registration. *)
Definition created (user : UserDoc) : Reply :=
  Json 201
    (JObj [("success", JBool true);
           ("message", JStr "User created successfully");
           ("data", JObj [("fullname", JStr (u_fullname user));
                          ("email", JStr (u_email user));
                          ("role", JStr (u_roleName user));
                          ("token", JStr (generateToken (u_id user)))])]).

(** The template of the mail sent by [registerUser]. *)
Definition welcome_html (name mail password : string) : string :=
  ("<html>" ++ nl ++
   "        <h5>Hello " ++ name ++ "</h5>," ++ nl ++
   "        Your account has been created successfully. <br />" ++ nl ++
   "        Here are your login details: Email: " ++ mail ++ nl ++
   "Password: " ++ password ++ " <br />" ++ nl ++
   "        Please change your password after logging in. <br /> " ++ nl ++
   "        Best regards, <br />" ++ nl ++
   "        Your Team." ++ nl ++
   "       </html>")%string.

(** [registerUser]. The [console.log] calls are left out; [User.create]
    resolves to the document it stored, so the test [if (user)] holds. *)
Definition registerUser (body : Body) : P Reply :=
  if absent (fullname body) || absent (email body) || absent (roleName body) then
    pret (Json 400 (JObj [("success", JBool false);
                          ("message", JStr "All fields are required")]))
  else
    let name := default "" (fullname body) in
    let mail := default "" (email body) in
    let role := default "" (roleName body) in
    let userEmail := toLowerCase mail in
    ptry
      (checkUserRole <- Roles_findOne role ;;
       if negb checkUserRole then
         pret (Json 400 (JObj [("message", JStr "Role does not exist")]))
       else
         mailExists <- User_findOne userEmail ;;
         if bool_decide (is_Some mailExists) then
           pret (Json 400 (JObj [("success", JBool false);
                                 ("message", JStr "User already exist")]))
         else
           defaultPassword <- randomBytes_hex ;;
           salt <- genSalt 10 ;;
           hashedPassword <- hash defaultPassword salt ;;
           user <- User_create name userEmail role hashedPassword ;;
           logActivity (u_id user) "CREATE_USER"
             ("User " ++ name ++ " was created with role " ++ role)%string ;;;
           sendEmail mail "Welcome onboard" ""
             (welcome_html name mail defaultPassword) ;;;
           pret (created user))
      (fun error =>
         pret (Json 500 (JObj [("message", JStr "Server error");
                               ("success", JBool false)]))).

(** [validateRegisterInput] *)
Definition validateRegisterInput (body : Body) : P unit :=
  if absent (fullname body) || absent (email body) || absent (roleName body) then
    pthrow "All fields are required"
  else pret tt.

(** [createUser], the service layer *)
Definition createUser (name mail role : string) : P (UserDoc * string) :=
  let userEmail := toLowerCase mail in
  role_found <- Roles_findOne role ;;
  if negb role_found then pthrow "Role does not exist"
  else
    exists_ <- User_findOne userEmail ;;
    if bool_decide (is_Some exists_) then pthrow "User already exists"
    else
      defaultPassword <- randomBytes_hex ;;
      salt <- genSalt 10 ;;
      hashedPassword <- hash defaultPassword salt ;;
      user <- User_create name userEmail role hashedPassword ;;
      pret (user, defaultPassword).

(** [sendWelcome] *)
Definition sendWelcome (name mail password : string) : P unit :=
  let subject := "Welcome onboard" in
  let html :=
    (nl ++
     "      <html>" ++ nl ++
     "        <h5>Hello " ++ name ++ "</h5>," ++ nl ++
     "        Your account has been created successfully.<br />" ++ nl ++
     "        Login: " ++ mail ++ "<br />" ++ nl ++
     "        Password: " ++ password ++ "<br />" ++ nl ++
     "        Please change your password after logging in.<br />" ++ nl ++
     "        Best regards,<br />Your Team." ++ nl ++
     "      </html>" ++ nl ++
     "    ")%string in
  sendEmail mail subject "" html.

(** [ImprovedRegisterUser] *)
Definition ImprovedRegisterUser (body : Body) : P Reply :=
  let name := default "" (fullname body) in
  let mail := default "" (email body) in
  let role := default "" (roleName body) in
  ptry
    (validateRegisterInput body ;;;
     created_ <- createUser name mail role ;;
     let '(user, defaultPassword) := created_ in
     logActivity (u_id user) "CREATE_USER"
       ("User " ++ name ++ " was created with role " ++ role)%string ;;;
     sendWelcome name mail defaultPassword ;;;
     pret (created user))
    (fun error =>
       pret (Json 400
               (JObj [("success", JBool false);
                      ("message", JStr (if String.eqb error "" then "Server error"
                                        else error))]))).

End Controllers.

(** ASCII lower-casing, to run the controllers on sample data. *)
Definition lower_ascii (c : ascii) : ascii :=
  let n := nat_of_ascii c in
  if (65 <=? n)%nat && (n <=? 90)%nat then ascii_of_nat (n + 32) else c.

Fixpoint lower (s : string) : string :=
  match s with
  | EmptyString => EmptyString
  | String c rest => String (lower_ascii c) (lower rest)
  end.

(** A database with the role "admin" and no user. *)
Definition empty_app : App :=
  {| users := []; roles := ["admin"]; activity := []; outbox := [];
     drawn := 0; plan := [] |}.

Definition sample_body : Body :=
  {| fullname := Some "Mubarak"; email := Some "Mubarak@Example.com";
     roleName := Some "admin" |}.

End Register.

(** * Cookie sessions and route protection ([Helmet&Cors&RateLimiting.js])

    The [/login], [/profile] and [/logout] handlers, the browser's side of
    the cookie they set, and the [ProtectedRoute] component. Times are in
    milliseconds here, as [maxAge] is. The fields of the login body are
    strings when present. *)

Module Auth.

Record CookieOptions : Type := mkOptions {
  httpOnly : bool;
  secure : bool;
  sameSite : string;
  maxAge : Z
}.

(** What a handler asks the browser to do with its cookies. *)
Inductive CookieOp : Type :=
  | SetCookie (name value : string) (options : CookieOptions)   (* [res.cookie] *)
  | ClearCookie (name : string).                                  (* [res.clearCookie] *)

Record Answer : Type := mkAnswer {
  cookie_ops : list CookieOp;
  reply : Reply
}.

Definition JWT_SECRET : string := "your_secret_key".

Section Handlers.

Variable jwt_sign : json -> string -> string -> string.   (* payload, secret, expiresIn *)
Variable jwt_verify : Z -> string -> string -> Result json.  (* at a time: token, secret *)

(** [app.post("/login", ...)] *)
Definition login (email password : option string) : Answer :=
  if bool_decide (email = Some "test@example.com")
     && bool_decide (password = Some "password") then
    let token := jwt_sign (JObj [("email", JStr "test@example.com")]) JWT_SECRET "1h" in
    {| cookie_ops :=
         [SetCookie "token" token
            {| httpOnly := true; secure := false; sameSite := "Lax";
               maxAge := 3600000 |}];
       reply := Json 200 (JObj [("message", JStr "Logged in successfully")]) |}
  else
    {| cookie_ops := [];
       reply := Json 401 (JObj [("message", JStr "Invalid credentials")]) |}.

(** [{ email: data.email }] as it is serialised: a missing field leaves
    the object empty. *)
Definition profile_body (data : json) : json :=
  match get_field "email" data with
  | Some v => JObj [("email", v)]
  | None => JObj []
  end.

(** [app.get("/profile", ...)], given [req.cookies.token] *)
Definition profile (t : Z) (token : option string) : Answer :=
  if negb (truthy_reply token) then
    {| cookie_ops := [];
       reply := Json 401 (JObj [("message", JStr "No token")]) |}
  else
    match jwt_verify t (default "" token) JWT_SECRET with
    | Ok data => {| cookie_ops := []; reply := Json 200 (profile_body data) |}
    | Throw _ =>
      {| cookie_ops := [];
         reply := Json 401 (JObj [("message", JStr "Invalid token")]) |}
    end.

(** [app.post("/logout", ...)] *)
Definition logout : Answer :=
  {| cookie_ops := [ClearCookie "token"];
     reply := Json 200 (JObj [("message", JStr "Logged out")]) |}.

End Handlers.

(** The browser: each cookie with the time at which it lapses. *)
Definition receive_one (t : Z) (jar : gmap string (string * Z)) (op : CookieOp)
    : gmap string (string * Z) :=
  match op with
  | SetCookie name value options => <[name := (value, t + maxAge options)]> jar
  | ClearCookie name => delete name jar
  end.

Definition receive (t : Z) (ops : list CookieOp) (jar : gmap string (string * Z))
    : gmap string (string * Z) :=
  foldl (receive_one t) jar ops.

(** [req.cookies[name]] of a request sent at [t]. *)
Definition sent (t : Z) (jar : gmap string (string * Z)) (name : string)
    : option string :=
  match jar !! name with
  | Some (value, lapses) => if t <? lapses then Some value else None
  | None => None
  end.

(** ** [ProtectedRoute] *)

Inductive Element : Type :=
  | Loading                  (* [<div>Loading...</div>] *)
  | Navigate (to : string)   (* [<Navigate to={to} replace />] *)
  | Outlet.

(** The value of [useAuth()]: the user, if any, with its role, if any. *)
Record AuthContext : Type := mkContext {
  user : option (option string);
  loading : bool
}.

(** [allowedRoles.includes(userRole)], the role possibly [undefined]. *)
Definition includes (allowedRoles : list string) (userRole : option string) : bool :=
  match userRole with
  | Some r => bool_decide (r ∈ allowedRoles)
  | None => false
  end.

Definition ProtectedRoute (allowedRoles : option (list string))
    (redirectTo : option string) (ctx : AuthContext) : Element :=
  let allowedRoles := default [] allowedRoles in
  let redirectTo := default "/login" redirectTo in
  if loading ctx then Loading
  else
    let isAuthenticated := bool_decide (is_Some (user ctx)) in
    let userRole := mjoin (user ctx) in
    if negb isAuthenticated then Navigate redirectTo
    else if (0 <? length allowedRoles)%nat && negb (includes allowedRoles userRole)
    then Navigate "/unauthorized"
    else Outlet.

End Auth.

(** * The authentication middleware ([Helmet&Cors&RateLimiting.js])

    [authenticateUser], given [req.cookies?.token]. A JavaScript object is
    the list of its own properties in insertion order, a property possibly
    holding [undefined]; the [console.error] of the [catch] block is left
    out. The cookie is a string when present. *)

Module Guard.

(** [o[k] = v]: an existing property keeps its place. *)
Fixpoint obj_set (k : string) (v : option json) (o : list (string * option json))
    : list (string * option json) :=
  match o with
  | [] => [(k, v)]
  | (k', v') :: rest =>
    if String.eqb k' k then (k, v) :: rest else (k', v') :: obj_set k v rest
  end.

(** [{ ...target, ...source }] *)
Definition spread (target source : list (string * option json))
    : list (string * option json) :=
  foldl (fun acc kv => obj_set (fst kv) (snd kv) acc) target source.

(** [o[k]], with [None] for a property that [o] does not have. *)
Fixpoint obj_get (k : string) (o : list (string * option json))
    : option (option json) :=
  match o with
  | [] => None
  | (k', v) :: rest => if String.eqb k' k then Some v else obj_get k rest
  end.

(** What the middleware reads of the document found by [User.findById]. *)
Record Doc : Type := mkDoc {
  doc_id : option string;          (* [user.id] *)
  doc_oid : option string;         (* [user._id?.toString()] *)
  doc_roleName : option json;      (* [user.roleName] *)
  doc_toObject : option (list (string * option json))   (* [user.toObject?.()] *)
}.

Inductive Outcome : Type :=
  | Replied (r : Reply)
  | Continued (req_user : list (string * option json)).   (* [req.user = ...; next()] *)

Section Middleware.

Variable trim : string -> string.                          (* [String.prototype.trim] *)
Variable jwt_verify : string -> option string -> Result json.
Variable JWT_SECRET : option string.                       (* [process.env.JWT_SECRET] *)
Variable User_findById : option json -> Result (option Doc).

Definition unauthorized (message : string) : Outcome :=
  Replied (Json 401 (JObj [("message", JStr message)])).

(** [{ id: user.id || user._id?.toString(), role: user.roleName,
       ...user.toObject?.() }] *)
Definition req_user (user : Doc) : list (string * option json) :=
  let id :=
    match doc_id user with
    | Some s => if String.eqb s "" then JStr <$> doc_oid user else Some (JStr s)
    | None => JStr <$> doc_oid user
    end in
  spread [("id", id); ("role", doc_roleName user)] (default [] (doc_toObject user)).

Definition authenticateUser (token : option string) : Outcome :=
  if negb (truthy_reply token) || String.eqb (trim (default "" token)) "" then
    unauthorized "Unauthorized. No token provided."
  else
    match jwt_verify (default "" token) JWT_SECRET with
    | Throw _ => unauthorized "Invalid or expired token."
    | Ok decoded =>
      match User_findById (get_field "id" decoded) with
      | Throw _ => unauthorized "Invalid or expired token."
      | Ok None => unauthorized "Unauthorized. User not found."
      | Ok (Some user) => Continued (req_user user)
      end
    end.

End Middleware.

End Guard.

(** * Properties *)

(** ** The handlers at work *)

(** Eleven calls in a row from one address. *)
Example eleven_calls :
  fst (serve (rateLimiter "1.2.3.4") (replicate 11 0) fresh_world)
    = (replicate 10 (Ok Next) ++ [Ok too_many_requests])%list.
Proof. by vm_compute. Qed.

(** The twelfth call arrives after the minute: the count starts over. *)
Example call_after_the_window :
  fst (serve (rateLimiter "1.2.3.4") (replicate 11 0 ++ [60])%list fresh_world)
    = (replicate 10 (Ok Next) ++ [Ok too_many_requests; Ok Next])%list /\
  counter (snd (serve (rateLimiter "1.2.3.4") (replicate 11 0 ++ [60])%list fresh_world))
      "1.2.3.4"
    = Some (mkEntry "1" (Some 120)).
Proof. by vm_compute. Qed.

(** A product is computed once, then read back for an hour, then computed
    again. *)
Example product_for_an_hour :
  fst (serve (get_products_id atom_stringify atom_parse (fun _ => Ok (JNum 7)) "42")
         [0; 1; 3599; 3600] fresh_world)
    = [Ok (Json 200 (JNum 7)); Ok (Json 200 (JNum 7));
       Ok (Json 200 (JNum 7)); Ok (Json 200 (JNum 7))] /\
  db_calls (trace (snd (serve (get_products_id atom_stringify atom_parse
                                 (fun _ => Ok (JNum 7)) "42")
                          [0; 1; 3599; 3600] fresh_world))) = 2%nat.
Proof. by vm_compute. Qed.

Example atoms_round_trip :
  atom_parse (atom_stringify JNull) = Ok JNull /\
  atom_parse (atom_stringify (JBool true)) = Ok (JBool true) /\
  atom_parse (atom_stringify (JNum (-42))) = Ok (JNum (-42)) /\
  atom_parse "{oops" = Throw "SyntaxError: Unexpected token".
Proof. by vm_compute. Qed.

(** ** Decimal counters *)

Lemma Z_of_string_of_Z (z : Z) : Z_of_string (string_of_Z z) = Some z.
Proof.
  unfold Z_of_string, string_of_Z.
  rewrite NilZero.isi.
  - simpl. f_equal. apply DecimalZ.of_to.
  - destruct z; simpl; try discriminate.
    intros [= H]. now apply Unsigned.to_uint_nonnil in H.
  - destruct z; simpl; try discriminate.
    intros [= H]. now apply Unsigned.to_uint_nonnil in H.
Qed.

(** ** Sequencing *)

Lemma bind_Ok {A B} (m : M A) (k : A -> M B) w a w1 :
  m w = (Ok a, w1) -> bind m k w = k a w1.
Proof. intros H. unfold bind. by rewrite H. Qed.

Lemma bind_Throw {A B} (m : M A) (k : A -> M B) w msg w1 :
  m w = (Throw msg, w1) -> bind m k w = (Throw msg, w1).
Proof. intros H. unfold bind. by rewrite H. Qed.

Lemma try_catch_Ok {A} (m : M A) h w a w1 :
  m w = (Ok a, w1) -> try_catch m h w = (Ok a, w1).
Proof. intros H. unfold try_catch. by rewrite H. Qed.

Lemma try_catch_Throw {A} (m : M A) h w msg w1 :
  m w = (Throw msg, w1) -> try_catch m h w = h msg w1.
Proof. intros H. unfold try_catch. by rewrite H. Qed.

Lemma ret_if {A} (b : bool) (x y : A) (w : World) :
  (if b then ret x else ret y) w = (Ok (if b then x else y), w).
Proof. by destruct b. Qed.

(** ** Running one command *)

Lemma set_store_same sts sv st : set_store sts sv st sv = st.
Proof. unfold set_store. by rewrite decide_True. Qed.

Lemma set_store_other sts sv sv' st : sv' <> sv -> set_store sts sv st sv' = sts sv'.
Proof. intros H. unfold set_store. by rewrite decide_False. Qed.

Lemma planned_nil w : faults w = [] -> planned w = None.
Proof. unfold planned. by intros ->. Qed.

Lemma lookup_live_insert_eq st t k e :
  live t e = true -> lookup_live (<[k := e]> st) t k = Some e.
Proof. intros H. unfold lookup_live. by rewrite lookup_insert_eq, H. Qed.

Lemma lookup_live_Some st t k e :
  st !! k = Some e -> live t e = true -> lookup_live st t k = Some e.
Proof. intros H1 H2. unfold lookup_live. by rewrite H1, H2. Qed.

Lemma redis_get_run c key w :
  planned w = None ->
  redis_get c key w =
    (Ok (payload <$> lookup_live (stores w (server_of w c)) (now w) key),
     issue (EGet c key) w).
Proof. intros H. unfold redis_get, query. by rewrite H. Qed.

Lemma redis_get_fault c key w msg :
  planned w = Some msg ->
  redis_get c key w = (Throw msg, issue (EGet c key) w).
Proof. intros H. unfold redis_get, query. by rewrite H. Qed.

Lemma redis_set_run c key value secs w :
  planned w = None ->
  0 < secs ->
  redis_set c key value (Some secs) w =
    (Ok tt,
     put_store (server_of w c)
       (<[key := mkEntry value (Some (now w + secs))]> (stores w (server_of w c)))
       (issue (ESet c key value (Some secs)) w)).
Proof.
  intros H Hs. unfold redis_set, command. rewrite H. cbn zeta.
  by destruct (Z.leb_spec secs 0); [lia|].
Qed.

Lemma redis_set_fault c key value ex w msg :
  planned w = Some msg ->
  redis_set c key value ex w = (Throw msg, issue (ESet c key value ex) w).
Proof. intros H. unfold redis_set, command. by rewrite H. Qed.

Lemma redis_incr_fresh c key w :
  planned w = None ->
  lookup_live (stores w (server_of w c)) (now w) key = None ->
  redis_incr c key w =
    (Ok 1,
     put_store (server_of w c)
       (<[key := mkEntry (string_of_Z 1) None]> (stores w (server_of w c)))
       (issue (EIncr c key) w)).
Proof. intros H Hk. unfold redis_incr, command. by rewrite H; cbn zeta; rewrite Hk. Qed.

Lemma redis_incr_live c key w e n :
  planned w = None ->
  lookup_live (stores w (server_of w c)) (now w) key = Some e ->
  Z_of_string (payload e) = Some n ->
  redis_incr c key w =
    (Ok (n + 1),
     put_store (server_of w c)
       (<[key := mkEntry (string_of_Z (n + 1)) (expire_at e)]>
          (stores w (server_of w c)))
       (issue (EIncr c key) w)).
Proof.
  intros H Hk Hn. unfold redis_incr, command.
  by rewrite H; cbn zeta; rewrite Hk, Hn.
Qed.

Lemma redis_expire_live c key secs w e :
  planned w = None ->
  lookup_live (stores w (server_of w c)) (now w) key = Some e ->
  0 < secs ->
  redis_expire c key secs w =
    (Ok 1,
     put_store (server_of w c)
       (<[key := mkEntry (payload e) (Some (now w + secs))]>
          (stores w (server_of w c)))
       (issue (EExpire c key secs) w)).
Proof.
  intros H Hk Hs. unfold redis_expire, command.
  rewrite H; cbn zeta; rewrite Hk.
  by destruct (Z.leb_spec secs 0); [lia|].
Qed.

(** ** The limiter, one call at a time *)

Section LimiterSteps.

Variables (wnd m : Z) (ip : string).

(** The call that opens a window: the counter is created at 1 and gets its
    deadline. *)
Lemma limiter_opens_window (w : World) :
  0 < wnd ->
  faults w = [] ->
  no_counter w ip (now w) ->
  exists w',
    rateLimiterWith wnd m ip w = (Ok (verdict m 1), w') /\
    faults w' = [] /\
    counter w' ip = Some (mkEntry (string_of_Z 1) (Some (now w + wnd))) /\
    trace w' = EExpire redis (rate_key ip) wnd :: EIncr redis (rate_key ip) :: trace w.
Proof.
  intros Hwnd Hf Hno. unfold no_counter in Hno.
  unfold rateLimiterWith, counter. fold (rate_key ip).
  generalize dependent (rate_key ip). intros key Hno.
  erewrite bind_Ok; last by (apply redis_incr_fresh; [by apply planned_nil|done]).
  change (1 =? 1) with true. cbv iota.
  erewrite bind_Ok; last first.
  { erewrite bind_Ok; [reflexivity|].
    apply redis_expire_live with (e := mkEntry (string_of_Z 1) None); [| |done].
    - apply planned_nil. simpl. by rewrite Hf.
    - simpl. rewrite set_store_same. by apply lookup_live_insert_eq. }
  rewrite ret_if.
  eexists. split; [reflexivity|].
  simpl. rewrite Hf, !set_store_same, lookup_insert_eq. done.
Qed.

(** Any later call of the window: the counter moves from [n] to [n + 1],
    the deadline stays, no [EXPIRE] is sent. *)
Lemma limiter_counts (w : World) (n : Z) (d : option Z) :
  n <> 0 ->
  faults w = [] ->
  counter w ip = Some (mkEntry (string_of_Z n) d) ->
  live (now w) (mkEntry (string_of_Z n) d) = true ->
  exists w',
    rateLimiterWith wnd m ip w = (Ok (verdict m (n + 1)), w') /\
    faults w' = [] /\
    counter w' ip = Some (mkEntry (string_of_Z (n + 1)) d) /\
    trace w' = EIncr redis (rate_key ip) :: trace w.
Proof.
  intros Hn Hf Hc Hlive. unfold counter in *.
  unfold rateLimiterWith. fold (rate_key ip).
  generalize dependent (rate_key ip). intros key Hc.
  erewrite bind_Ok; last first.
  { eapply redis_incr_live; [by apply planned_nil| |].
    - simpl. by apply lookup_live_Some.
    - simpl. apply Z_of_string_of_Z. }
  destruct (Z.eqb_spec (n + 1) 1) as [?|_]; [lia|].
  erewrite bind_Ok; [|reflexivity].
  rewrite ret_if.
  eexists. split; [reflexivity|].
  simpl. rewrite Hf, !set_store_same, lookup_insert_eq. done.
Qed.

End LimiterSteps.

(** A call that finds a live counter other than 0 sends no [EXPIRE] and
    leaves the deadline alone, whatever the servers answer. *)
Lemma limiter_leaves_deadline (wnd m : Z) (ip : string) (w : World) (n : Z) (d : option Z) :
  counter w ip = Some (mkEntry (string_of_Z n) d) ->
  live (now w) (mkEntry (string_of_Z n) d) = true ->
  n <> 0 ->
  count_expire (rate_key ip) (trace (snd (rateLimiterWith wnd m ip w)))
    = count_expire (rate_key ip) (trace w) /\
  expire_at <$> counter (snd (rateLimiterWith wnd m ip w)) ip = Some d.
Proof.
  intros Hc Hlive Hn. unfold counter in *.
  unfold rateLimiterWith. fold (rate_key ip).
  generalize dependent (rate_key ip). intros key Hc.
  destruct (planned w) as [msg|] eqn:Hp.
  - erewrite bind_Throw; last first.
    { unfold redis_incr, command. by rewrite Hp. }
    simpl. rewrite Hc. split; [|done].
    unfold count_expire. by rewrite filter_cons_False.
  - erewrite bind_Ok; last first.
    { eapply redis_incr_live; [done| |].
      - simpl. by apply lookup_live_Some.
      - simpl. apply Z_of_string_of_Z. }
    destruct (Z.eqb_spec (n + 1) 1) as [?|_]; [lia|].
    erewrite bind_Ok; [|reflexivity].
    rewrite ret_if. simpl. rewrite set_store_same, lookup_insert_eq.
    split; [|done].
    unfold count_expire. by rewrite filter_cons_False.
Qed.

(** ** The limiter over a window *)

Lemma serve_cons (h : M Reply) t ts w r w1 rs w2 :
  h (at_time t w) = (r, w1) ->
  serve h ts w1 = (rs, w2) ->
  serve h (t :: ts) w = (r :: rs, w2).
Proof. intros H1 H2. simpl. by rewrite H1, H2. Qed.

Lemma count_expire_cons_incr key c k tr :
  count_expire key (EIncr c k :: tr) = count_expire key tr.
Proof. unfold count_expire. by rewrite filter_cons_False. Qed.

Lemma count_expire_cons_expire key c secs tr :
  count_expire key (EExpire c key secs :: tr) = S (count_expire key tr).
Proof.
  unfold count_expire. rewrite filter_cons_True; [done|].
  simpl. apply String.eqb_refl.
Qed.

Section LimiterWindow.

Variables (wnd m : Z) (ip : string).

(** Calls made while the counter is live. *)
Lemma serve_live_counter (ts : list Z) : forall (w : World) (n d : Z),
  1 <= n ->
  faults w = [] ->
  counter w ip = Some (mkEntry (string_of_Z n) (Some d)) ->
  Forall (fun t => t < d) ts ->
  exists w',
    serve (rateLimiterWith wnd m ip) ts w = (verdicts m n (length ts), w') /\
    faults w' = [] /\
    counter w' ip =
      Some (mkEntry (string_of_Z (n + Z.of_nat (length ts))) (Some d)) /\
    count_expire (rate_key ip) (trace w') = count_expire (rate_key ip) (trace w).
Proof.
  induction ts as [|t ts IH]; intros w n d Hn Hf Hc Hts.
  - exists w. simpl. rewrite Z.add_0_r. done.
  - apply Forall_cons in Hts as [Ht Hts].
    destruct (limiter_counts wnd m ip (at_time t w) n (Some d))
      as (w1 & Hrun & Hf1 & Hc1 & Htr1); [lia|done|done| |].
    { simpl. by apply Z.ltb_lt. }
    destruct (IH w1 (n + 1) d) as (w2 & Hserve & Hf2 & Hc2 & Htr2);
      [lia|done|done|done|].
    exists w2. split; [|split; [done|split]].
    + erewrite serve_cons; [|exact Hrun|exact Hserve].
      unfold verdicts. rewrite (seqZ_cons (n + 1)) by (simpl length; lia).
      rewrite fmap_cons.
      replace (Z.pred (Z.of_nat (length (t :: ts)))) with (Z.of_nat (length ts))
        by (simpl length; lia).
      by replace (Z.succ (n + 1)) with (n + 1 + 1) by lia.
    + rewrite Hc2.
      by replace (n + 1 + Z.of_nat (length ts)) with (n + Z.of_nat (length (t :: ts)))
        by (simpl length; lia).
    + rewrite Htr2, Htr1. simpl trace. apply count_expire_cons_incr.
Qed.

(** A whole window, from the call that opens it. *)
Lemma serve_window (w : World) (t0 : Z) (ts : list Z) :
  0 < wnd ->
  faults w = [] ->
  no_counter w ip t0 ->
  Forall (fun t => t0 <= t < t0 + wnd) ts ->
  exists w',
    serve (rateLimiterWith wnd m ip) (t0 :: ts) w
      = (verdicts m 0 (S (length ts)), w') /\
    faults w' = [] /\
    counter w' ip =
      Some (mkEntry (string_of_Z (Z.of_nat (S (length ts)))) (Some (t0 + wnd))) /\
    count_expire (rate_key ip) (trace w')
      = S (count_expire (rate_key ip) (trace w)).
Proof.
  intros Hwnd Hf Hno Hts.
  destruct (limiter_opens_window wnd m ip (at_time t0 w))
    as (w1 & Hrun & Hf1 & Hc1 & Htr1); [done|done|done|].
  simpl now in Hc1.
  destruct (serve_live_counter ts w1 1 (t0 + wnd))
    as (w2 & Hserve & Hf2 & Hc2 & Htr2); [lia|done|done| |].
  { eapply Forall_impl; [exact Hts|]. simpl. lia. }
  exists w2. split; [|split; [done|split]].
  - erewrite serve_cons; [|exact Hrun|exact Hserve].
    unfold verdicts. rewrite (seqZ_cons (0 + 1)) by lia.
    rewrite fmap_cons.
    by replace (Z.pred (Z.of_nat (S (length ts)))) with (Z.of_nat (length ts)) by lia.
  - rewrite Hc2.
    by replace (1 + Z.of_nat (length ts)) with (Z.of_nat (S (length ts))) by lia.
  - rewrite Htr2, Htr1. simpl trace.
    by rewrite count_expire_cons_expire, count_expire_cons_incr.
Qed.

Lemma verdicts_lookup (n : Z) (len k : nat) (r : Result Reply) :
  verdicts m n len !! k = Some r ->
  r = Ok (verdict m (n + Z.of_nat (S k))) /\ (k < len)%nat.
Proof.
  unfold verdicts. rewrite list_lookup_fmap.
  destruct (seqZ (n + 1) (Z.of_nat len) !! k) as [c|] eqn:E; [|done].
  apply lookup_seqZ in E as [-> ?]. intros [= <-].
  split; [do 2 f_equal|]; lia.
Qed.

End LimiterWindow.

Lemma verdict_within (m n : Z) : n <= m -> verdict m n = Next.
Proof. intros H. unfold verdict. by destruct (Z.gtb_spec n m); [lia|]. Qed.

Lemma verdict_beyond (m n : Z) : m < n -> verdict m n = too_many_requests.
Proof. intros H. unfold verdict. by destruct (Z.gtb_spec n m); [|lia]. Qed.

Lemma verdict_too_many (m n : Z) : verdict m n = too_many_requests -> m < n.
Proof. unfold verdict. by destruct (Z.gtb_spec n m); [lia|]. Qed.

(** C1. Within one window the limiter lets exactly the first [m] calls of an
    identity through and turns away call [m + 1] and every later one; once
    the window has elapsed the counter is gone and the next call counts from
    one again. The middleware of the source is the instance [wnd = 60],
    [m = 10]. *)
Theorem limiter_allows_first_m (ip : string) (wnd m t0 : Z) (ts : list Z) (w : World) :
  0 < wnd ->
  faults w = [] ->
  no_counter w ip t0 ->
  Forall (fun t => t0 <= t < t0 + wnd) ts ->
  let out := serve (rateLimiterWith wnd m ip) (t0 :: ts) w in
  length (fst out) = S (length ts) /\
  (forall (k : nat) (r : Result Reply),
     fst out !! k = Some r ->
     (Z.of_nat (S k) <= m -> r = Ok Next) /\
     (m < Z.of_nat (S k) -> r = Ok too_many_requests)) /\
  (forall t, t0 + wnd <= t ->
     no_counter (snd out) ip t /\
     exists w'',
       rateLimiterWith wnd m ip (at_time t (snd out)) = (Ok (verdict m 1), w'') /\
       counter w'' ip = Some (mkEntry (string_of_Z 1) (Some (t + wnd)))).
Proof.
  intros Hwnd Hf Hno Hts out.
  destruct (serve_window wnd m ip w t0 ts) as (w' & Hserve & Hf' & Hc & _);
    [done..|].
  subst out. rewrite Hserve. cbn [fst snd].
  split; [|split].
  - unfold verdicts. by rewrite length_fmap, length_seqZ, Nat2Z.id.
  - intros k r Hk. apply verdicts_lookup in Hk as [-> _].
    rewrite Z.add_0_l. split; intros H.
    + by rewrite verdict_within.
    + by rewrite verdict_beyond.
  - intros t Ht.
    assert (Hgone : no_counter w' ip t).
    { unfold no_counter, lookup_live. unfold counter in Hc. rewrite Hc.
      unfold live. cbn [expire_at].
      by destruct (Z.ltb_spec t (t0 + wnd)); [lia|]. }
    split; [done|].
    destruct (limiter_opens_window wnd m ip (at_time t w'))
      as (w'' & Hrun & _ & Hc'' & _); [done..|].
    by exists w''.
Qed.

(** C6. In a window the expiry of the counter is set exactly once: the call
    that creates the counter (count 1) sends the one [EXPIRE], and after
    every further call of the window still exactly one has been sent and the
    deadline is the one fixed by the first call. More generally a call that
    finds a live counter at [n <> 0], so that its count is not 1, never
    sends [EXPIRE] nor moves the deadline, whatever the state and the faults. *)
Theorem expiry_set_once_per_window (ip : string) (wnd m t0 : Z) (ts : list Z) (w : World) :
  0 < wnd ->
  faults w = [] ->
  no_counter w ip t0 ->
  Forall (fun t => t0 <= t < t0 + wnd) ts ->
  trace (snd (serve (rateLimiterWith wnd m ip) [t0] w))
    = EExpire redis (rate_key ip) wnd :: EIncr redis (rate_key ip) :: trace w /\
  (forall k : nat,
     let wk := snd (serve (rateLimiterWith wnd m ip) (t0 :: take k ts) w) in
     count_expire (rate_key ip) (trace wk) = S (count_expire (rate_key ip) (trace w)) /\
     expire_at <$> counter wk ip = Some (Some (t0 + wnd))) /\
  (forall (w1 : World) (n : Z) (d : option Z),
     counter w1 ip = Some (mkEntry (string_of_Z n) d) ->
     live (now w1) (mkEntry (string_of_Z n) d) = true ->
     n <> 0 ->
     count_expire (rate_key ip) (trace (snd (rateLimiterWith wnd m ip w1)))
       = count_expire (rate_key ip) (trace w1) /\
     expire_at <$> counter (snd (rateLimiterWith wnd m ip w1)) ip = Some d).
Proof.
  intros Hwnd Hf Hno Hts. split; [|split].
  - destruct (limiter_opens_window wnd m ip (at_time t0 w))
      as (w1 & Hrun & _ & _ & Htr); [done..|].
    simpl. by rewrite Hrun.
  - intros k wk.
    destruct (serve_window wnd m ip w t0 (take k ts)) as (w' & Hserve & _ & Hc & Htr);
      [done|done|done|by apply Forall_take|].
    subst wk. rewrite Hserve. cbn [snd]. by rewrite Hc.
  - intros w1 n d. apply limiter_leaves_deadline.
Qed.

(** C10. Every call moves the counter, the ones turned away included: after
    [k + 1] calls of a window the counter reads [k + 1], whatever the
    threshold [m] is, so it passes [m] and keeps growing; and once a call
    has been turned away every later call of the window is turned away. *)
Theorem limiter_counter_keeps_growing (ip : string) (wnd m t0 : Z) (ts : list Z) (w : World) :
  0 < wnd ->
  faults w = [] ->
  no_counter w ip t0 ->
  Forall (fun t => t0 <= t < t0 + wnd) ts ->
  (forall k : nat, (k <= length ts)%nat ->
     counter (snd (serve (rateLimiterWith wnd m ip) (t0 :: take k ts) w)) ip
       = Some (mkEntry (string_of_Z (Z.of_nat (S k))) (Some (t0 + wnd)))) /\
  (forall i j : nat, (i <= j)%nat -> (j <= length ts)%nat ->
     fst (serve (rateLimiterWith wnd m ip) (t0 :: ts) w) !! i
       = Some (Ok too_many_requests) ->
     fst (serve (rateLimiterWith wnd m ip) (t0 :: ts) w) !! j
       = Some (Ok too_many_requests)).
Proof.
  intros Hwnd Hf Hno Hts. split.
  - intros k Hk.
    destruct (serve_window wnd m ip w t0 (take k ts)) as (w' & Hserve & _ & Hc & _);
      [done|done|done|by apply Forall_take|].
    rewrite Hserve. cbn [snd]. rewrite Hc.
    by rewrite length_take_le.
  - intros i j Hij Hj.
    destruct (serve_window wnd m ip w t0 ts) as (w' & Hserve & _ & _ & _);
      [done..|].
    rewrite Hserve. cbn [fst]. intros Hi.
    apply verdicts_lookup in Hi as [[= Hi] _].
    symmetry in Hi. apply verdict_too_many in Hi.
    unfold verdicts. rewrite list_lookup_fmap, lookup_seqZ_lt by lia.
    simpl. rewrite verdict_beyond; [done|lia].
Qed.

Lemma limiter_allows_first_m_witness :
  length (fst (serve (rateLimiter "1.2.3.4") (0 :: replicate 10 0) fresh_world))
    = 11%nat /\
  (forall (k : nat) (r : Result Reply),
     fst (serve (rateLimiter "1.2.3.4") (0 :: replicate 10 0) fresh_world) !! k
       = Some r ->
     (Z.of_nat (S k) <= 10 -> r = Ok Next) /\
     (10 < Z.of_nat (S k) -> r = Ok too_many_requests)) /\
  (forall t, 0 + 60 <= t ->
     no_counter
       (snd (serve (rateLimiter "1.2.3.4") (0 :: replicate 10 0) fresh_world))
       "1.2.3.4" t /\
     exists w'',
       rateLimiter "1.2.3.4"
         (at_time t
            (snd (serve (rateLimiter "1.2.3.4") (0 :: replicate 10 0) fresh_world)))
         = (Ok (verdict 10 1), w'') /\
       counter w'' "1.2.3.4" = Some (mkEntry (string_of_Z 1) (Some (t + 60)))).
Proof.
  apply (limiter_allows_first_m "1.2.3.4" 60 10 0 (replicate 10 0) fresh_world).
  - lia.
  - reflexivity.
  - reflexivity.
  - repeat constructor; lia.
Defined.

Lemma expiry_set_once_per_window_witness :
  trace (snd (serve (rateLimiter "1.2.3.4") [0] fresh_world))
    = [EExpire redis (rate_key "1.2.3.4") 60; EIncr redis (rate_key "1.2.3.4")] /\
  forall k : nat,
    count_expire (rate_key "1.2.3.4")
      (trace (snd (serve (rateLimiter "1.2.3.4") (0 :: take k [5; 20; 59]) fresh_world)))
      = 1%nat /\
    expire_at <$>
      counter (snd (serve (rateLimiter "1.2.3.4") (0 :: take k [5; 20; 59]) fresh_world))
        "1.2.3.4"
      = Some (Some (0 + 60)).
Proof.
  destruct (expiry_set_once_per_window "1.2.3.4" 60 10 0 [5; 20; 59] fresh_world)
    as (H1 & H2 & _).
  - lia.
  - reflexivity.
  - reflexivity.
  - repeat constructor; lia.
  - exact (conj H1 H2).
Defined.

Lemma limiter_counter_keeps_growing_witness :
  (forall k : nat, (k <= length (replicate 14 7))%nat ->
     counter (snd (serve (rateLimiter "1.2.3.4") (0 :: take k (replicate 14 7)) fresh_world))
       "1.2.3.4"
       = Some (mkEntry (string_of_Z (Z.of_nat (S k))) (Some (0 + 60)))) /\
  (forall i j : nat, (i <= j)%nat -> (j <= length (replicate 14 7))%nat ->
     fst (serve (rateLimiter "1.2.3.4") (0 :: replicate 14 7) fresh_world) !! i
       = Some (Ok too_many_requests) ->
     fst (serve (rateLimiter "1.2.3.4") (0 :: replicate 14 7) fresh_world) !! j
       = Some (Ok too_many_requests)).
Proof.
  apply (limiter_counter_keeps_growing "1.2.3.4" 60 10 0 (replicate 14 7) fresh_world).
  - lia.
  - reflexivity.
  - reflexivity.
  - repeat constructor; lia.
Defined.

(** ** What a rejection carries *)

(** C7, as stated, fails: the eleventh call of the scenario is turned away
    with a body that has no [retryAfterSeconds]. *)
Lemma rejection_without_retry_after :
  last (fst (serve (rateLimiter "1.2.3.4") (replicate 11 0) fresh_world))
    = Some (Ok too_many_requests) /\
  ~ carries_retry_after 60 too_many_requests.
Proof.
  split; [by vm_compute|].
  intros (status & body & n & [= <- <-] & Hfield & _).
  discriminate Hfield.
Qed.

(** C7, amended. Whenever the limiter answers instead of calling [next], the
    answer is status 429 with the body [{ error: "Too many requests" }]: it
    has no [retryAfterSeconds], and the call has sent [INCR] (and [EXPIRE]
    when the count was 1) and nothing else, so no time-to-live was read. *)
Theorem limiter_rejection_shape (ip : string) (wnd m : Z) (w w' : World)
    (status : Z) (body : json) :
  rateLimiterWith wnd m ip w = (Ok (Json status body), w') ->
  status = 429 /\
  body = JObj [("error", JStr "Too many requests")] /\
  get_field "retryAfterSeconds" body = None /\
  (trace w' = EIncr redis (rate_key ip) :: trace w \/
   trace w' = EExpire redis (rate_key ip) wnd :: EIncr redis (rate_key ip) :: trace w).
Proof.
  unfold rateLimiterWith. fold (rate_key ip). generalize (rate_key ip). intros key.
  unfold bind at 1.
  destruct (redis_incr redis key w) as [[c|msg] w1] eqn:Hincr; [|discriminate].
  assert (Htr1 : trace w1 = EIncr redis key :: trace w).
  { unfold redis_incr, command in Hincr.
    destruct (planned w); [discriminate|]. cbn zeta in Hincr.
    destruct (lookup_live _ _ _); [destruct (Z_of_string _)|];
      injection Hincr as _ <-; done. }
  unfold bind at 1.
  destruct (c =? 1).
  - unfold bind at 1.
    destruct (redis_expire redis key wnd w1) as [[?|?] w2] eqn:Hexp; [|discriminate].
    assert (Htr2 : trace w2 = EExpire redis key wnd :: trace w1).
    { unfold redis_expire, command in Hexp.
      destruct (planned w1); [discriminate|]. cbn zeta in Hexp.
      destruct (lookup_live _ _ _); [destruct (_ <=? _)|];
        injection Hexp as _ <-; done. }
    unfold ret at 1. rewrite ret_if.
    destruct (c >? m); intros [= <- <- <-]. rewrite Htr2, Htr1. auto.
  - unfold ret at 1. rewrite ret_if.
    destruct (c >? m); intros [= <- <- <-]. rewrite Htr1. auto.
Qed.

Lemma limiter_rejection_shape_witness :
  429 = 429 /\
  JObj [("error", JStr "Too many requests")] = JObj [("error", JStr "Too many requests")] /\
  get_field "retryAfterSeconds" (JObj [("error", JStr "Too many requests")]) = None /\
  (trace (snd (rateLimiter "1.2.3.4" (snd (serve (rateLimiter "1.2.3.4") (replicate 10 0) fresh_world))))
     = EIncr redis (rate_key "1.2.3.4")
         :: trace (snd (serve (rateLimiter "1.2.3.4") (replicate 10 0) fresh_world)) \/
   trace (snd (rateLimiter "1.2.3.4" (snd (serve (rateLimiter "1.2.3.4") (replicate 10 0) fresh_world))))
     = EExpire redis (rate_key "1.2.3.4") 60 :: EIncr redis (rate_key "1.2.3.4")
         :: trace (snd (serve (rateLimiter "1.2.3.4") (replicate 10 0) fresh_world))).
Proof.
  apply (limiter_rejection_shape "1.2.3.4" 60 10
           (snd (serve (rateLimiter "1.2.3.4") (replicate 10 0) fresh_world))).
  vm_compute. reflexivity.
Defined.

(** ** The cache-aside handlers, path by path *)

Lemma truthy_reply_Some s : s <> "" -> truthy_reply (Some s) = true.
Proof. intros H. simpl. by destruct (String.eqb_spec s ""). Qed.

Section Paths.

Variable JSON_stringify : json -> string.
Variable JSON_parse : string -> Result json.
Variable Product_findById : string -> Result json.

Lemma findById_run id w :
  findById Product_findById id w = (Product_findById id, note (EFindById id) w).
Proof. reflexivity. Qed.

(** [app.get("/products/:id")], served from the cache. *)
Lemma products_hit id w s v :
  planned w = None ->
  cached_at w (product_key id) = Some s ->
  s <> "" ->
  JSON_parse s = Ok v ->
  get_products_id JSON_stringify JSON_parse Product_findById id w
    = (Ok (Json 200 v), issue (EGet redis (product_key id)) w).
Proof.
  intros Hp Hc Hs Hv. unfold get_products_id. fold (product_key id).
  erewrite bind_Ok; [|by apply redis_get_run].
  cbn [server_of]. fold (cached_at w (product_key id)). rewrite Hc.
  rewrite truthy_reply_Some by done.
  erewrite bind_Ok; [reflexivity|]. unfold parse_reply, lift. by rewrite Hv.
Qed.

(** [app.get("/products/:id")], computed and stored. *)
Lemma products_miss id w product :
  planned w = None ->
  truthy_reply (cached_at w (product_key id)) = false ->
  Product_findById id = Ok product ->
  planned (issue (EGet redis (product_key id)) w) = None ->
  get_products_id JSON_stringify JSON_parse Product_findById id w
    = (Ok (Json 200 product),
       put_store (Local 6379)
         (<[product_key id := mkEntry (JSON_stringify product) (Some (now w + 3600))]>
            (stores w (Local 6379)))
         (issue (ESet redis (product_key id) (JSON_stringify product) (Some 3600))
            (note (EFindById id) (issue (EGet redis (product_key id)) w)))).
Proof.
  intros Hp Hc Hdb Hp2. unfold get_products_id. fold (product_key id).
  erewrite bind_Ok; [|by apply redis_get_run].
  cbn [server_of]. fold (cached_at w (product_key id)). rewrite Hc.
  erewrite bind_Ok; [|by rewrite findById_run, Hdb].
  erewrite bind_Ok; [reflexivity|].
  by rewrite redis_set_run.
Qed.

(** [router.get("/:id")], served from the cache. *)
Lemma router_hit id w s v :
  planned w = None ->
  cached_at w (product_key id) = Some s ->
  s <> "" ->
  JSON_parse s = Ok v ->
  router_get_id JSON_stringify JSON_parse Product_findById id w
    = (Ok (Json 200 (JObj [("source", JStr "cache"); ("data", v)])),
       issue (EGet redis (product_key id)) w).
Proof.
  intros Hp Hc Hs Hv. unfold router_get_id. fold (product_key id).
  apply try_catch_Ok.
  erewrite bind_Ok; [|by apply redis_get_run].
  cbn [server_of]. fold (cached_at w (product_key id)). rewrite Hc.
  rewrite truthy_reply_Some by done.
  erewrite bind_Ok; [reflexivity|]. unfold parse_reply, lift. by rewrite Hv.
Qed.

(** [router.get("/:id")], computed and stored through [redisr]. *)
Lemma router_miss id w product :
  planned w = None ->
  truthy_reply (cached_at w (product_key id)) = false ->
  Product_findById id = Ok product ->
  js_truthy product = true ->
  planned (issue (EGet redis (product_key id)) w) = None ->
  router_get_id JSON_stringify JSON_parse Product_findById id w
    = (Ok (Json 200 (JObj [("source", JStr "db"); ("data", product)])),
       put_store (server_of w redisr)
         (<[product_key id := mkEntry (JSON_stringify product) (Some (now w + 3600))]>
            (stores w (server_of w redisr)))
         (issue (ESet redisr (product_key id) (JSON_stringify product) (Some 3600))
            (note (EFindById id) (issue (EGet redis (product_key id)) w)))).
Proof.
  intros Hp Hc Hdb Ht Hp2. unfold router_get_id. fold (product_key id).
  apply try_catch_Ok.
  erewrite bind_Ok; [|by apply redis_get_run].
  cbn [server_of]. fold (cached_at w (product_key id)). rewrite Hc.
  erewrite bind_Ok; [|by rewrite findById_run, Hdb].
  rewrite Ht. cbn [negb].
  erewrite bind_Ok; [reflexivity|].
  by rewrite redis_set_run.
Qed.

(** [router.get("/:id")], nothing found. *)
Lemma router_not_found id w product :
  planned w = None ->
  truthy_reply (cached_at w (product_key id)) = false ->
  Product_findById id = Ok product ->
  js_truthy product = false ->
  router_get_id JSON_stringify JSON_parse Product_findById id w
    = (Ok (Json 404 (JObj [("message", JStr "Not found")])),
       note (EFindById id) (issue (EGet redis (product_key id)) w)).
Proof.
  intros Hp Hc Hdb Ht. unfold router_get_id. fold (product_key id).
  apply try_catch_Ok.
  erewrite bind_Ok; [|by apply redis_get_run].
  cbn [server_of]. fold (cached_at w (product_key id)). rewrite Hc.
  erewrite bind_Ok; [|by rewrite findById_run, Hdb].
  by rewrite Ht.
Qed.

End Paths.

(** ** Requests served from a live entry *)

Lemma db_calls_cons_get c k tr : db_calls (EGet c k :: tr) = db_calls tr.
Proof. unfold db_calls. by rewrite filter_cons_False. Qed.

Lemma db_calls_cons_set c k v ex tr : db_calls (ESet c k v ex :: tr) = db_calls tr.
Proof. unfold db_calls. by rewrite filter_cons_False. Qed.

Lemma db_calls_cons_find id tr : db_calls (EFindById id :: tr) = S (db_calls tr).
Proof. unfold db_calls. by rewrite filter_cons_True. Qed.

Lemma db_calls_cons_news tr : db_calls (EFakeNews :: tr) = S (db_calls tr).
Proof. unfold db_calls. by rewrite filter_cons_True. Qed.

Section Hits.

(** A handler [h] that answers [r] from the [GET] alone whenever [key]
    resolves to [s] keeps doing so while the entry is live, and leaves the
    source of truth alone. *)
Lemma served_from_cache (h : M Reply) (r : Reply) key s d (ts : list Z) :
  (forall w, planned w = None -> cached_at w key = Some s ->
             h w = (Ok r, issue (EGet redis key) w)) ->
  forall w,
  faults w = [] ->
  stores w (Local 6379) !! key = Some (mkEntry s (Some d)) ->
  Forall (fun t => t < d) ts ->
  exists w',
    serve h ts w = (replicate (length ts) (Ok r), w') /\
    stores w' = stores w /\
    db_calls (trace w') = db_calls (trace w).
Proof.
  intros Hhit.
  induction ts as [|t ts IH]; intros w Hf He Hts.
  - by exists w.
  - apply Forall_cons in Hts as [Ht Hts].
    destruct (IH (issue (EGet redis key) (at_time t w)))
      as (w' & Hserve & Hst & Hdb); [by simpl; rewrite Hf|done..|].
    exists w'. split; [|split].
    + eapply serve_cons; [|exact Hserve]. apply Hhit; [by apply planned_nil|].
      unfold cached_at. simpl.
      rewrite (lookup_live_Some _ _ _ (mkEntry s (Some d))); [done|done|].
      unfold live. simpl. by apply Z.ltb_lt.
    + by rewrite Hst.
    + rewrite Hdb. simpl. apply db_calls_cons_get.
Qed.

Variable JSON_stringify : json -> string.
Variable JSON_parse : string -> Result json.
Variable Product_findById : string -> Result json.

(** While the entry of a product is live, [app.get("/products/:id")]
    answers every request from it and leaves the source of truth alone. *)
Lemma products_served_from_cache id s v d (ts : list Z) w :
  faults w = [] ->
  stores w (Local 6379) !! product_key id = Some (mkEntry s (Some d)) ->
  s <> "" ->
  JSON_parse s = Ok v ->
  Forall (fun t => t < d) ts ->
  exists w',
    serve (get_products_id JSON_stringify JSON_parse Product_findById id) ts w
      = (replicate (length ts) (Ok (Json 200 v)), w') /\
    stores w' = stores w /\
    db_calls (trace w') = db_calls (trace w).
Proof.
  intros Hf He Hs Hv Hts.
  apply (served_from_cache _ _ (product_key id) s d); [|done..].
  intros w1 Hp Hc. by apply products_hit with (s := s).
Qed.

(** The same for [router.get("/:id")]. *)
Lemma router_served_from_cache id s v d (ts : list Z) w :
  faults w = [] ->
  stores w (Local 6379) !! product_key id = Some (mkEntry s (Some d)) ->
  s <> "" ->
  JSON_parse s = Ok v ->
  Forall (fun t => t < d) ts ->
  exists w',
    serve (router_get_id JSON_stringify JSON_parse Product_findById id) ts w
      = (replicate (length ts)
           (Ok (Json 200 (JObj [("source", JStr "cache"); ("data", v)]))), w') /\
    stores w' = stores w /\
    db_calls (trace w') = db_calls (trace w).
Proof.
  intros Hf He Hs Hv Hts.
  apply (served_from_cache _ _ (product_key id) s d); [|done..].
  intros w1 Hp Hc. by apply router_hit with (s := s).
Qed.

End Hits.

(** C9. When the lookup finds nothing, [app.get("/products/:id")] still
    writes the encoded [null] under the product key for 3600 seconds and
    answers with it, and for the next hour every request for that id is
    answered [null] from the cache without a call to the source of truth;
    [router.get("/:id")] answers 404 and writes nothing. *)
Theorem null_product_is_cached_by_first_handler
    (JSON_stringify : json -> string) (JSON_parse : string -> Result json)
    (db db' : string -> Result json) (id : string) (w : World) (ts : list Z) :
  JSON_stringify JNull = "null" ->
  JSON_parse "null" = Ok JNull ->
  db id = Ok JNull ->
  faults w = [] ->
  cached_at w (product_key id) = None ->
  Forall (fun t => now w <= t < now w + 3600) ts ->
  let out := get_products_id JSON_stringify JSON_parse db id w in
  fst out = Ok (Json 200 JNull) /\
  stores (snd out) (Local 6379) !! product_key id
    = Some (mkEntry "null" (Some (now w + 3600))) /\
  (let later := serve (get_products_id JSON_stringify JSON_parse db' id) ts (snd out) in
   fst later = replicate (length ts) (Ok (Json 200 JNull)) /\
   db_calls (trace (snd later)) = db_calls (trace (snd out))) /\
  (let out2 := router_get_id JSON_stringify JSON_parse db id w in
   fst out2 = Ok (Json 404 (JObj [("message", JStr "Not found")])) /\
   stores (snd out2) = stores w /\
   trace (snd out2) = EFindById id :: EGet redis (product_key id) :: trace w).
Proof.
  intros Hnull Hparse Hdb Hf Hmiss Hts out.
  assert (Hout : out = _) by
    (apply (products_miss JSON_stringify JSON_parse db id w JNull);
     [by apply planned_nil|by rewrite Hmiss|done|by apply planned_nil; simpl; rewrite Hf]).
  rewrite Hnull in Hout.
  assert (Hentry : stores (snd out) (Local 6379) !! product_key id
                   = Some (mkEntry "null" (Some (now w + 3600)))).
  { rewrite Hout. simpl. by rewrite set_store_same, lookup_insert_eq. }
  split; [by rewrite Hout|]. split; [done|]. split.
  - destruct (products_served_from_cache JSON_stringify JSON_parse db' id
                "null" JNull (now w + 3600) ts (snd out))
      as (w' & Hserve & _ & Hcalls); [|done|done|done| |].
    + rewrite Hout. simpl. by rewrite Hf.
    + eapply Forall_impl; [exact Hts|]. simpl. lia.
    + simpl. by rewrite Hserve.
  - simpl.
    rewrite (router_not_found JSON_stringify JSON_parse db id w JNull);
      [done|by apply planned_nil|by rewrite Hmiss|done|done].
Qed.

Lemma null_product_is_cached_by_first_handler_witness :
  fst (get_products_id atom_stringify atom_parse (fun _ => Ok JNull) "42" fresh_world)
    = Ok (Json 200 JNull) /\
  stores (snd (get_products_id atom_stringify atom_parse (fun _ => Ok JNull) "42" fresh_world))
      (Local 6379) !! product_key "42"
    = Some (mkEntry "null" (Some (now fresh_world + 3600))) /\
  (fst (serve (get_products_id atom_stringify atom_parse (fun _ => Throw "down") "42")
          [0; 1800; 3599]
          (snd (get_products_id atom_stringify atom_parse (fun _ => Ok JNull) "42" fresh_world)))
     = replicate (length [0; 1800; 3599]) (Ok (Json 200 JNull)) /\
   db_calls (trace (snd (serve (get_products_id atom_stringify atom_parse (fun _ => Throw "down") "42")
          [0; 1800; 3599]
          (snd (get_products_id atom_stringify atom_parse (fun _ => Ok JNull) "42" fresh_world)))))
     = db_calls (trace (snd (get_products_id atom_stringify atom_parse (fun _ => Ok JNull) "42" fresh_world)))) /\
  (fst (router_get_id atom_stringify atom_parse (fun _ => Ok JNull) "42" fresh_world)
     = Ok (Json 404 (JObj [("message", JStr "Not found")])) /\
   stores (snd (router_get_id atom_stringify atom_parse (fun _ => Ok JNull) "42" fresh_world))
     = stores fresh_world /\
   trace (snd (router_get_id atom_stringify atom_parse (fun _ => Ok JNull) "42" fresh_world))
     = EFindById "42" :: EGet redis (product_key "42") :: trace fresh_world).
Proof.
  apply (null_product_is_cached_by_first_handler atom_stringify atom_parse
           (fun _ => Ok JNull) (fun _ => Throw "down") "42" fresh_world [0; 1800; 3599]).
  - reflexivity.
  - reflexivity.
  - reflexivity.
  - reflexivity.
  - reflexivity.
  - repeat constructor; simpl; lia.
Defined.

(** ** Failures of the compute step *)

Ltac run_handler :=
  unfold get_products_id, router_get_id, get_news, try_catch, bind,
    redis_get, redis_set, query, command, findById, getFakeNewsFromDb,
    parse_reply, bind, record, lift, ret.

(** C4. When the lookup in the source of truth fails, no server is written
    (the cache is exactly what it was), and the failure reaches the caller:
    [router.get("/:id")] answers 500 with the message of the failure, and
    out of [app.get("/products/:id")] the failure itself propagates. *)
Theorem compute_failure_is_not_cached
    (JSON_stringify : json -> string) (JSON_parse : string -> Result json)
    (db : string -> Result json) (id msg : string) (w : World) :
  db id = Throw msg ->
  stores (snd (router_get_id JSON_stringify JSON_parse db id w)) = stores w /\
  stores (snd (get_products_id JSON_stringify JSON_parse db id w)) = stores w /\
  (planned w = None ->
   truthy_reply (cached_at w (product_key id)) = false ->
   fst (router_get_id JSON_stringify JSON_parse db id w)
     = Ok (Json 500 (JObj [("error", JStr msg)])) /\
   fst (get_products_id JSON_stringify JSON_parse db id w) = Throw msg /\
   In (EFindById id) (trace (snd (router_get_id JSON_stringify JSON_parse db id w))) /\
   In (EFindById id) (trace (snd (get_products_id JSON_stringify JSON_parse db id w)))).
Proof.
  intros Hdb. unfold cached_at, product_key.
  split; [|split].
  - run_handler. rewrite Hdb. repeat case_match; simplify_eq/=; done.
  - run_handler. rewrite Hdb. repeat case_match; simplify_eq/=; done.
  - intros Hp Hmiss. run_handler. rewrite Hdb, Hp. cbn [server_of]. rewrite Hmiss.
    simpl. auto.
Qed.

Lemma compute_failure_is_not_cached_witness :
  stores (snd (router_get_id atom_stringify atom_parse (fun _ => Throw "db down") "42" fresh_world))
    = stores fresh_world /\
  stores (snd (get_products_id atom_stringify atom_parse (fun _ => Throw "db down") "42" fresh_world))
    = stores fresh_world /\
  fst (router_get_id atom_stringify atom_parse (fun _ => Throw "db down") "42" fresh_world)
    = Ok (Json 500 (JObj [("error", JStr "db down")])) /\
  fst (get_products_id atom_stringify atom_parse (fun _ => Throw "db down") "42" fresh_world)
    = Throw "db down".
Proof.
  destruct (compute_failure_is_not_cached atom_stringify atom_parse
              (fun _ => Throw "db down") "42" "db down" fresh_world)
    as (H1 & H2 & H3).
  - reflexivity.
  - destruct H3 as (H3 & H4 & _); [reflexivity|reflexivity|].
    exact (conj H1 (conj H2 (conj H3 H4))).
Defined.

(** ** Every cache write carries a TTL *)

Section KeepsTtl.

Variable w0 : World.

Lemma writes_with_ttl_refl : writes_with_ttl w0 w0.
Proof. split; [by exists []|]. auto. Qed.

Lemma writes_with_ttl_event ev w :
  set_has_ttl ev ->
  writes_with_ttl w0 w ->
  forall w', trace w' = ev :: trace w -> stores w' = stores w ->
  writes_with_ttl w0 w'.
Proof.
  intros Hev [(sent & Htr & Hsent) Hst] w' Htr' Hst'. split.
  - exists (ev :: sent). rewrite Htr', Htr. split; [done|]. by constructor.
  - intros sv k e. rewrite Hst'. apply Hst.
Qed.

Lemma keeps_ret {A} (a : A) : keeps_ttl w0 (ret a).
Proof. by intros w H. Qed.

Lemma keeps_lift {A} (r : Result A) : keeps_ttl w0 (lift r).
Proof. by intros w H. Qed.

Lemma keeps_bind {A B} (m : M A) (k : A -> M B) :
  keeps_ttl w0 m -> (forall a, keeps_ttl w0 (k a)) -> keeps_ttl w0 (bind m k).
Proof.
  intros Hm Hk w H. specialize (Hm w H). unfold bind.
  destruct (m w) as [[a|msg] w1]; [|done]. by apply Hk.
Qed.

Lemma keeps_try_catch {A} (m : M A) (h : string -> M A) :
  keeps_ttl w0 m -> (forall err, keeps_ttl w0 (h err)) -> keeps_ttl w0 (try_catch m h).
Proof.
  intros Hm Hh w H. specialize (Hm w H). unfold try_catch.
  destruct (m w) as [[a|msg] w1]; [done|]. by apply Hh.
Qed.

Lemma keeps_if {A} (b : bool) (m1 m2 : M A) :
  keeps_ttl w0 m1 -> keeps_ttl w0 m2 -> keeps_ttl w0 (if b then m1 else m2).
Proof. by destruct b. Qed.

Lemma keeps_record ev : set_has_ttl ev -> keeps_ttl w0 (record ev).
Proof.
  intros Hev w [Hnow H]. split; [done|].
  by apply (writes_with_ttl_event ev w).
Qed.

Lemma keeps_get c key : keeps_ttl w0 (redis_get c key).
Proof.
  intros w [Hnow H]. unfold redis_get, query.
  destruct (planned w); (split; [done|]);
    by apply (writes_with_ttl_event (EGet c key) w).
Qed.

Lemma keeps_set c key value ttl :
  0 < ttl -> keeps_ttl w0 (redis_set c key value (Some ttl)).
Proof.
  intros Httl w [Hnow H].
  assert (Hev : set_has_ttl (ESet c key value (Some ttl))) by (simpl; eauto).
  destruct (planned w) as [msg|] eqn:Hp.
  - rewrite (redis_set_fault _ _ _ _ _ msg) by done.
    split; [done|]. by apply (writes_with_ttl_event _ w Hev).
  - rewrite redis_set_run by done. split; [done|].
    pose proof (writes_with_ttl_event _ w Hev H
                  (issue (ESet c key value (Some ttl)) w) eq_refl eq_refl)
      as [Hsent Hst].
    split; [exact Hsent|].
    intros sv k e. simpl. unfold set_store. case_decide as Hsv.
    + rewrite lookup_insert. case_decide as Hk.
      * intros [= <-]. right. exists ttl. simpl. by rewrite Hnow.
      * subst sv. apply Hst.
    + apply Hst.
Qed.

Lemma keeps_ttl_run {A} (m : M A) :
  keeps_ttl w0 m -> writes_with_ttl w0 (snd (m w0)).
Proof. intros H. apply H. split; [done|apply writes_with_ttl_refl]. Qed.

End KeepsTtl.

(** C8. Whatever the request, the servers and the planned faults, each of
    the three handlers sends only [SET]s that carry [EX] with a positive
    number of seconds, and every entry it writes or replaces expires later
    than the request. *)
Theorem every_cache_write_has_ttl
    (JSON_stringify : json -> string) (JSON_parse : string -> Result json)
    (db : string -> Result json) (id : string) (w : World) :
  writes_with_ttl w (snd (get_products_id JSON_stringify JSON_parse db id w)) /\
  writes_with_ttl w (snd (router_get_id JSON_stringify JSON_parse db id w)) /\
  writes_with_ttl w (snd (get_news JSON_stringify w)).
Proof.
  split; [|split].
  - apply keeps_ttl_run.
    unfold get_products_id.
    apply keeps_bind; [apply keeps_get|]. intros cached.
    apply keeps_if.
    + apply keeps_bind; [|intros; apply keeps_ret].
      unfold parse_reply. destruct cached; apply keeps_lift.
    + apply keeps_bind; [|intros product].
      { apply keeps_bind; [by apply keeps_record|intros; apply keeps_lift]. }
      apply keeps_bind; [by apply keeps_set|intros; apply keeps_ret].
  - apply keeps_ttl_run.
    unfold router_get_id.
    apply keeps_try_catch; [|intros; apply keeps_ret].
    apply keeps_bind; [apply keeps_get|]. intros cached.
    apply keeps_if.
    + apply keeps_bind; [|intros; apply keeps_ret].
      unfold parse_reply. destruct cached; apply keeps_lift.
    + apply keeps_bind; [|intros product].
      { apply keeps_bind; [by apply keeps_record|intros; apply keeps_lift]. }
      apply keeps_if; [apply keeps_ret|].
      apply keeps_bind; [by apply keeps_set|intros; apply keeps_ret].
  - apply keeps_ttl_run.
    unfold get_news.
    apply keeps_try_catch; [|intros; apply keeps_ret].
    apply keeps_bind; [apply keeps_get|]. intros cached.
    apply keeps_if; [apply keeps_ret|].
    apply keeps_bind; [|intros news].
    { apply keeps_bind; [by apply keeps_record|intros; apply keeps_ret]. }
    apply keeps_bind; [by apply keeps_set|intros; apply keeps_ret].
Qed.

(** ** Failures on the read path *)

(** C3, as stated, fails: with the server unreachable, and with an entry
    that does not parse, [router.get("/:id")] answers 500 and never consults
    the source of truth. *)
Lemma read_failure_is_not_a_miss :
  (fst (router_get_id atom_stringify atom_parse (fun _ => Ok sample_product) "42"
          (world_with_faults [Some "ECONNREFUSED"]))
     = Ok (Json 500 (JObj [("error", JStr "ECONNREFUSED")])) /\
   ~ served_by_compute "42"
       (router_get_id atom_stringify atom_parse (fun _ => Ok sample_product) "42"
          (world_with_faults [Some "ECONNREFUSED"]))) /\
  (fst (router_get_id atom_stringify atom_parse (fun _ => Ok sample_product) "42"
          (world_holding "product:42" "{oops" 3600))
     = Ok (Json 500 (JObj [("error", JStr "SyntaxError: Unexpected token")])) /\
   ~ served_by_compute "42"
       (router_get_id atom_stringify atom_parse (fun _ => Ok sample_product) "42"
          (world_holding "product:42" "{oops" 3600))).
Proof.
  split; (split; [by vm_compute|]).
  - intros [Hin _]. vm_compute in Hin. by destruct Hin as [?|[]].
  - intros [Hin _]. vm_compute in Hin. by destruct Hin as [?|[]].
Qed.

(** C3, amended. A failure on the read path is not turned into a miss: when
    [get] is rejected, or resolves to a string that does not parse,
    [router.get("/:id")] answers 500 with the message of the failure, having
    sent the [GET] and nothing else (no call to the source of truth, no
    write); [app.get("/news")] answers a rejected [get] with 500
    "Server error" in the same way. *)
Theorem read_failure_is_answered_with_500
    (JSON_stringify : json -> string) (JSON_parse : string -> Result json)
    (db : string -> Result json) (id msg : string) (w : World) :
  read_fails JSON_parse w (product_key id) msg ->
  router_get_id JSON_stringify JSON_parse db id w
    = (Ok (Json 500 (JObj [("error", JStr msg)])),
       issue (EGet redis (product_key id)) w) /\
  (planned w = Some msg ->
   get_news JSON_stringify w = (Ok server_error, issue (EGet redis "news:all") w)).
Proof.
  intros Hfail. split.
  - unfold router_get_id. fold (product_key id).
    destruct Hfail as [Hp|(Hp & s & Hc & Hs & Hv)].
    + erewrite try_catch_Throw; [reflexivity|].
      apply bind_Throw. by apply redis_get_fault.
    + erewrite try_catch_Throw; [reflexivity|].
      erewrite bind_Ok; [|by apply redis_get_run].
      cbn [server_of]. fold (cached_at w (product_key id)). rewrite Hc.
      rewrite truthy_reply_Some by done.
      apply bind_Throw. unfold parse_reply, lift. by rewrite Hv.
  - intros Hp. unfold get_news.
    erewrite try_catch_Throw; [reflexivity|].
    apply bind_Throw. by apply redis_get_fault.
Qed.

Lemma read_failure_is_answered_with_500_witness :
  router_get_id atom_stringify atom_parse (fun _ => Ok sample_product) "42"
      (world_with_faults [Some "ECONNREFUSED"])
    = (Ok (Json 500 (JObj [("error", JStr "ECONNREFUSED")])),
       issue (EGet redis (product_key "42")) (world_with_faults [Some "ECONNREFUSED"])) /\
  get_news atom_stringify (world_with_faults [Some "ECONNREFUSED"])
    = (Ok server_error,
       issue (EGet redis "news:all") (world_with_faults [Some "ECONNREFUSED"])).
Proof.
  destruct (read_failure_is_answered_with_500 atom_stringify atom_parse
              (fun _ => Ok sample_product) "42" "ECONNREFUSED"
              (world_with_faults [Some "ECONNREFUSED"])) as [H1 H2].
  - left. reflexivity.
  - split; [exact H1|]. apply H2. reflexivity.
Defined.

(** Out of [app.get("/products/:id")], which has no [catch], the same
    failures propagate as they are; the source of truth is not consulted
    either. *)
Lemma products_read_failure_propagates
    (JSON_stringify : json -> string) (JSON_parse : string -> Result json)
    (db : string -> Result json) (id msg : string) (w : World) :
  read_fails JSON_parse w (product_key id) msg ->
  get_products_id JSON_stringify JSON_parse db id w
    = (Throw msg, issue (EGet redis (product_key id)) w).
Proof.
  intros Hfail. unfold get_products_id. fold (product_key id).
  destruct Hfail as [Hp|(Hp & s & Hc & Hs & Hv)].
  - apply bind_Throw. by apply redis_get_fault.
  - erewrite bind_Ok; [|by apply redis_get_run].
    cbn [server_of]. fold (cached_at w (product_key id)). rewrite Hc.
    rewrite truthy_reply_Some by done.
    apply bind_Throw. unfold parse_reply, lift. by rewrite Hv.
Qed.

(** ** Failures of the cache-population write *)

(** C5, as stated, fails: the product is found, the [SET] is rejected, and
    [router.get("/:id")] answers 500 instead of the product. *)
Lemma write_failure_fails_the_request :
  fst (router_get_id atom_stringify atom_parse (fun _ => Ok sample_product) "42"
         (world_with_faults [None; Some "ECONNRESET"]))
    = Ok (Json 500 (JObj [("error", JStr "ECONNRESET")])) /\
  ~ returns_value sample_product
      (fst (router_get_id atom_stringify atom_parse (fun _ => Ok sample_product) "42"
              (world_with_faults [None; Some "ECONNRESET"]))).
Proof.
  split; [by vm_compute|].
  intros [H|(body & H & _)]; vm_compute in H; discriminate H.
Qed.

(** C5, amended. When the product has been found and the write that should
    populate the cache is rejected, [router.get("/:id")] does not hand the
    product over: the rejection is caught and answered with status 500 and
    its message, and no server has changed; [app.get("/news")] answers 500
    "Server error" in the same situation. *)
Theorem write_failure_is_answered_with_500
    (JSON_stringify : json -> string) (JSON_parse : string -> Result json)
    (db : string -> Result json) (id msg : string) (product : json)
    (rest : list (option string)) (w : World) :
  faults w = None :: Some msg :: rest ->
  truthy_reply (cached_at w (product_key id)) = false ->
  db id = Ok product ->
  js_truthy product = true ->
  let out := router_get_id JSON_stringify JSON_parse db id w in
  fst out = Ok (Json 500 (JObj [("error", JStr msg)])) /\
  stores (snd out) = stores w /\
  ~ returns_value product (fst out) /\
  (truthy_reply (cached_at w "news:all") = false ->
   fst (get_news JSON_stringify w) = Ok server_error /\
   stores (snd (get_news JSON_stringify w)) = stores w).
Proof.
  intros Hf Hmiss Hdb Ht out.
  assert (Hp : planned w = None) by (unfold planned; by rewrite Hf).
  assert (Hout : out = (Ok (Json 500 (JObj [("error", JStr msg)])),
                        issue (ESet redisr (product_key id) (JSON_stringify product) (Some 3600))
                          (note (EFindById id) (issue (EGet redis (product_key id)) w)))).
  { subst out. unfold router_get_id. fold (product_key id).
    erewrite try_catch_Throw; [reflexivity|].
    erewrite bind_Ok; [|by apply redis_get_run].
    cbn [server_of]. fold (cached_at w (product_key id)). rewrite Hmiss.
    erewrite bind_Ok; [|by rewrite findById_run, Hdb].
    rewrite Ht. cbn [negb].
    apply bind_Throw. apply redis_set_fault.
    unfold planned. simpl. by rewrite Hf. }
  rewrite Hout. cbn [fst snd].
  split; [done|]. split; [done|]. split.
  - intros [H|(body & H & _)]; discriminate H.
  - intros Hnews. unfold get_news.
    erewrite try_catch_Throw; last first.
    { erewrite bind_Ok; [|by apply redis_get_run].
      cbn [server_of]. fold (cached_at w "news:all"). rewrite Hnews.
      erewrite bind_Ok; [|reflexivity].
      apply bind_Throw. apply redis_set_fault.
      unfold planned. simpl. by rewrite Hf. }
    by split.
Qed.

Lemma write_failure_is_answered_with_500_witness :
  fst (router_get_id atom_stringify atom_parse (fun _ => Ok sample_product) "42"
         (world_with_faults [None; Some "ECONNRESET"]))
    = Ok (Json 500 (JObj [("error", JStr "ECONNRESET")])) /\
  stores (snd (router_get_id atom_stringify atom_parse (fun _ => Ok sample_product) "42"
                 (world_with_faults [None; Some "ECONNRESET"])))
    = stores (world_with_faults [None; Some "ECONNRESET"]) /\
  fst (get_news atom_stringify (world_with_faults [None; Some "ECONNRESET"]))
    = Ok server_error.
Proof.
  destruct (write_failure_is_answered_with_500 atom_stringify atom_parse
              (fun _ => Ok sample_product) "42" "ECONNRESET" sample_product []
              (world_with_faults [None; Some "ECONNRESET"]))
    as (H1 & H2 & _ & H3).
  - reflexivity.
  - reflexivity.
  - reflexivity.
  - reflexivity.
  - destruct H3 as [H3 _]; [reflexivity|].
    exact (conj H1 (conj H2 H3)).
Defined.

(** ** The second request for the same key *)

(** [app.get("/products/:id")] reads back what it wrote: after a miss that
    stored the product, every request of the next hour is answered with the
    same product from the cache, whatever the source of truth has become. *)
Lemma products_second_call_hits
    (JSON_stringify : json -> string) (JSON_parse : string -> Result json)
    (db db' : string -> Result json) (id : string) (product : json)
    (w : World) (ts : list Z) :
  faults w = [] ->
  truthy_reply (cached_at w (product_key id)) = false ->
  db id = Ok product ->
  JSON_stringify product <> "" ->
  JSON_parse (JSON_stringify product) = Ok product ->
  Forall (fun t => now w <= t < now w + 3600) ts ->
  let out := get_products_id JSON_stringify JSON_parse db id w in
  let later := serve (get_products_id JSON_stringify JSON_parse db' id) ts (snd out) in
  fst out = Ok (Json 200 product) /\
  fst later = replicate (length ts) (Ok (Json 200 product)) /\
  db_calls (trace (snd later)) = db_calls (trace (snd out)).
Proof.
  intros Hf Hmiss Hdb Hne Hrt Hts out later.
  assert (Hout : out = _) by
    (apply (products_miss JSON_stringify JSON_parse db id w product);
     [by apply planned_nil|done|done|by apply planned_nil; simpl; rewrite Hf]).
  destruct (products_served_from_cache JSON_stringify JSON_parse db' id
              (JSON_stringify product) product (now w + 3600) ts (snd out))
    as (w' & Hserve & _ & Hcalls); [| |done|done| |].
  - rewrite Hout. simpl. by rewrite Hf.
  - rewrite Hout. simpl. by rewrite set_store_same, lookup_insert_eq.
  - eapply Forall_impl; [exact Hts|]. simpl. lia.
  - subst later. rewrite Hserve. cbn [fst snd].
    split; [by rewrite Hout|]. by split.
Qed.

(** So does [router.get("/:id")] when [redisr] reaches the server of [redis],
    that is when [REDIS_PORT] is unset or 6379. *)
Lemma router_second_call_hits
    (JSON_stringify : json -> string) (JSON_parse : string -> Result json)
    (db db' : string -> Result json) (id : string) (product : json)
    (w : World) (ts : list Z) :
  default 6379 (REDIS_PORT w) = 6379 ->
  faults w = [] ->
  truthy_reply (cached_at w (product_key id)) = false ->
  db id = Ok product ->
  js_truthy product = true ->
  JSON_stringify product <> "" ->
  JSON_parse (JSON_stringify product) = Ok product ->
  Forall (fun t => now w <= t < now w + 3600) ts ->
  let out := router_get_id JSON_stringify JSON_parse db id w in
  let later := serve (router_get_id JSON_stringify JSON_parse db' id) ts (snd out) in
  fst out = Ok (Json 200 (JObj [("source", JStr "db"); ("data", product)])) /\
  fst later = replicate (length ts)
                (Ok (Json 200 (JObj [("source", JStr "cache"); ("data", product)]))) /\
  db_calls (trace (snd later)) = db_calls (trace (snd out)).
Proof.
  intros Hport Hf Hmiss Hdb Ht Hne Hrt Hts out later.
  assert (Hout : out = _) by
    (apply (router_miss JSON_stringify JSON_parse db id w product);
     [by apply planned_nil|done|done|done|by apply planned_nil; simpl; rewrite Hf]).
  unfold server_of in Hout. rewrite Hport in Hout.
  destruct (router_served_from_cache JSON_stringify JSON_parse db' id
              (JSON_stringify product) product (now w + 3600) ts (snd out))
    as (w' & Hserve & _ & Hcalls); [| |done|done| |].
  - rewrite Hout. simpl. by rewrite Hf.
  - rewrite Hout. simpl. by rewrite set_store_same, lookup_insert_eq.
  - eapply Forall_impl; [exact Hts|]. simpl. lia.
  - subst later. rewrite Hserve. cbn [fst snd].
    split; [by rewrite Hout|]. by split.
Qed.

(** C2 on [app.get("/news")]. The handler looks the feed up through [redis]
    and stores it through [redis2]: no run of it changes a server that
    [redis] can reach, so the entry it writes is never the one it reads. On
    empty servers two requests in a row both call [getFakeNewsFromDb] and
    both answer with source "db". *)
Theorem news_cache_is_never_read_back (JSON_stringify : json -> string) :
  (forall (w : World) (port : Z),
     stores (snd (get_news JSON_stringify w)) (Local port) = stores w (Local port)) /\
  fst (serve (get_news JSON_stringify) [0; 0] fresh_world)
    = [Ok news_from_db; Ok news_from_db] /\
  db_calls (trace (snd (serve (get_news JSON_stringify) [0; 0] fresh_world))) = 2%nat.
Proof.
  split; [|split; by vm_compute].
  intros w port. unfold get_news, try_catch, bind at 1.
  destruct (planned w) as [msg|] eqn:Hp.
  - by rewrite (redis_get_fault _ _ _ msg).
  - rewrite redis_get_run by done. cbn [server_of].
    destruct (truthy_reply _); [done|].
    unfold bind at 1. unfold getFakeNewsFromDb, bind at 1, record, ret at 1.
    unfold bind.
    destruct (planned (note EFakeNews (issue (EGet redis "news:all") w)))
      as [msg|] eqn:Hp2.
    + by rewrite (redis_set_fault _ _ _ _ _ msg).
    + rewrite redis_set_run by done. simpl. by rewrite set_store_other.
Qed.

(** With [REDIS_PORT] set to another port, [router.get("/:id")] has the same
    defect: the second request computes again. *)
Lemma router_other_port_recomputes :
  fst (serve (router_get_id atom_stringify atom_parse (fun _ => Ok (JNum 7)) "42")
         [0; 0]
         {| stores := fun _ => ∅; now := 0; REDIS_PORT := Some 6380;
            faults := []; trace := [] |})
    = [Ok (Json 200 (JObj [("source", JStr "db"); ("data", JNum 7)]));
       Ok (Json 200 (JObj [("source", JStr "db"); ("data", JNum 7)]))].
Proof. by vm_compute. Qed.


(** * Further properties of the cache-aside handlers *)

(** ** Expiry and invalidation *)

Lemma products_second_call_hits_witness :
  fst (get_products_id atom_stringify atom_parse (fun _ => Ok (JNum 7)) "42" fresh_world)
    = Ok (Json 200 (JNum 7)) /\
  fst (serve (get_products_id atom_stringify atom_parse (fun _ => Throw "down") "42")
         [0; 10; 3599]
         (snd (get_products_id atom_stringify atom_parse (fun _ => Ok (JNum 7)) "42"
                 fresh_world)))
    = replicate (length [0; 10; 3599]) (Ok (Json 200 (JNum 7))) /\
  db_calls (trace (snd (serve (get_products_id atom_stringify atom_parse
                                 (fun _ => Throw "down") "42")
                          [0; 10; 3599]
                          (snd (get_products_id atom_stringify atom_parse
                                  (fun _ => Ok (JNum 7)) "42" fresh_world)))))
    = db_calls (trace (snd (get_products_id atom_stringify atom_parse
                              (fun _ => Ok (JNum 7)) "42" fresh_world))).
Proof.
  apply (products_second_call_hits atom_stringify atom_parse
           (fun _ => Ok (JNum 7)) (fun _ => Throw "down") "42" (JNum 7)
           fresh_world [0; 10; 3599]).
  - reflexivity.
  - reflexivity.
  - reflexivity.
  - by vm_compute.
  - reflexivity.
  - repeat constructor; simpl; lia.
Defined.

Lemma router_second_call_hits_witness :
  fst (router_get_id atom_stringify atom_parse (fun _ => Ok (JNum 7)) "42" fresh_world)
    = Ok (Json 200 (JObj [("source", JStr "db"); ("data", JNum 7)])) /\
  fst (serve (router_get_id atom_stringify atom_parse (fun _ => Throw "down") "42")
         [0; 10; 3599]
         (snd (router_get_id atom_stringify atom_parse (fun _ => Ok (JNum 7)) "42"
                 fresh_world)))
    = replicate (length [0; 10; 3599])
        (Ok (Json 200 (JObj [("source", JStr "cache"); ("data", JNum 7)]))) /\
  db_calls (trace (snd (serve (router_get_id atom_stringify atom_parse
                                 (fun _ => Throw "down") "42")
                          [0; 10; 3599]
                          (snd (router_get_id atom_stringify atom_parse
                                  (fun _ => Ok (JNum 7)) "42" fresh_world)))))
    = db_calls (trace (snd (router_get_id atom_stringify atom_parse
                              (fun _ => Ok (JNum 7)) "42" fresh_world))).
Proof.
  apply (router_second_call_hits atom_stringify atom_parse
           (fun _ => Ok (JNum 7)) (fun _ => Throw "down") "42" (JNum 7)
           fresh_world [0; 10; 3599]).
  - reflexivity.
  - reflexivity.
  - reflexivity.
  - reflexivity.
  - reflexivity.
  - by vm_compute.
  - reflexivity.
  - repeat constructor; simpl; lia.
Defined.

Lemma lookup_live_expired st t k e d :
  st !! k = Some e -> expire_at e = Some d -> d <= t -> lookup_live st t k = None.
Proof.
  intros He Hd Ht. unfold lookup_live, live. rewrite He, Hd.
  by destruct (Z.ltb_spec t d); [lia|].
Qed.

(** An entry written by [app.get("/products/:id")] is gone 3600 seconds
    later: the first request from then on consults the source of truth
    again, answers with what it finds now, and stores that for the next
    3600 seconds. *)
Theorem products_recomputes_after_ttl
    (JSON_stringify : json -> string) (JSON_parse : string -> Result json)
    (db db' : string -> Result json) (id : string) (product product' : json)
    (w : World) (t : Z) :
  faults w = [] ->
  truthy_reply (cached_at w (product_key id)) = false ->
  db id = Ok product ->
  db' id = Ok product' ->
  now w + 3600 <= t ->
  let out := get_products_id JSON_stringify JSON_parse db id w in
  let out' := get_products_id JSON_stringify JSON_parse db' id (at_time t (snd out)) in
  fst out' = Ok (Json 200 product') /\
  db_calls (trace (snd out')) = S (db_calls (trace (snd out))) /\
  stores (snd out') (Local 6379) !! product_key id
    = Some (mkEntry (JSON_stringify product') (Some (t + 3600))).
Proof.
  intros Hf Hmiss Hdb Hdb' Ht out out'.
  assert (Hout : out = _) by
    (apply (products_miss JSON_stringify JSON_parse db id w product);
     [by apply planned_nil|done|done|by apply planned_nil; simpl; rewrite Hf]).
  subst out'.
  rewrite (products_miss JSON_stringify JSON_parse db' id (at_time t (snd out)) product').
  - cbn [fst snd]. split; [done|]. split.
    + simpl. by rewrite db_calls_cons_set, db_calls_cons_find, db_calls_cons_get.
    + simpl. by rewrite set_store_same, lookup_insert_eq.
  - apply planned_nil. rewrite Hout. simpl. by rewrite Hf.
  - unfold cached_at. rewrite Hout. simpl. rewrite set_store_same.
    erewrite lookup_live_expired; [done|apply lookup_insert_eq|done|done].
  - done.
  - apply planned_nil. rewrite Hout. simpl. by rewrite Hf.
Qed.

Lemma products_recomputes_after_ttl_witness :
  fst (get_products_id atom_stringify atom_parse (fun _ => Ok (JNum 8)) "42"
         (at_time 3600
            (snd (get_products_id atom_stringify atom_parse (fun _ => Ok (JNum 7)) "42"
                    fresh_world))))
    = Ok (Json 200 (JNum 8)) /\
  db_calls (trace (snd (get_products_id atom_stringify atom_parse (fun _ => Ok (JNum 8)) "42"
         (at_time 3600
            (snd (get_products_id atom_stringify atom_parse (fun _ => Ok (JNum 7)) "42"
                    fresh_world))))))
    = S (db_calls (trace (snd (get_products_id atom_stringify atom_parse
                                 (fun _ => Ok (JNum 7)) "42" fresh_world)))) /\
  stores (snd (get_products_id atom_stringify atom_parse (fun _ => Ok (JNum 8)) "42"
         (at_time 3600
            (snd (get_products_id atom_stringify atom_parse (fun _ => Ok (JNum 7)) "42"
                    fresh_world))))) (Local 6379) !! product_key "42"
    = Some (mkEntry (atom_stringify (JNum 8)) (Some (3600 + 3600))).
Proof.
  apply (products_recomputes_after_ttl atom_stringify atom_parse
           (fun _ => Ok (JNum 7)) (fun _ => Ok (JNum 8)) "42" (JNum 7) (JNum 8)
           fresh_world 3600).
  - reflexivity.
  - reflexivity.
  - reflexivity.
  - reflexivity.
  - simpl. lia.
Defined.

Lemma redis_del_run c key w :
  planned w = None ->
  redis_del c key w =
    (Ok (match lookup_live (stores w (server_of w c)) (now w) key with
         | Some _ => 1
         | None => 0
         end),
     put_store (server_of w c) (delete key (stores w (server_of w c))) (consume w)).
Proof. intros H. unfold redis_del. by rewrite H. Qed.

(** Invalidation forces a recomputation: once [redis.del] has removed the
    key of a product (the source does it for "product:123"), whatever the
    cache held, the next request, at that instant or later, consults the
    source of truth once, answers with its value and stores it again. The
    same holds for [router.get("/:id")] when the product is found. *)
Theorem del_forces_recompute
    (JSON_stringify : json -> string) (JSON_parse : string -> Result json)
    (db : string -> Result json) (id : string) (product : json)
    (w : World) (t : Z) :
  faults w = [] ->
  db id = Ok product ->
  let w1 := at_time t (snd (redis_del redis (product_key id) w)) in
  fst (redis_del redis (product_key id) w)
    = Ok (match cached_at w (product_key id) with Some _ => 1 | None => 0 end) /\
  (let out := get_products_id JSON_stringify JSON_parse db id w1 in
   fst out = Ok (Json 200 product) /\
   db_calls (trace (snd out)) = S (db_calls (trace w)) /\
   stores (snd out) (Local 6379) !! product_key id
     = Some (mkEntry (JSON_stringify product) (Some (t + 3600)))) /\
  (js_truthy product = true ->
   let out := router_get_id JSON_stringify JSON_parse db id w1 in
   fst out = Ok (Json 200 (JObj [("source", JStr "db"); ("data", product)])) /\
   db_calls (trace (snd out)) = S (db_calls (trace w))).
Proof.
  intros Hf Hdb w1.
  assert (Hw1 : w1 = at_time t (put_store (Local 6379)
                        (delete (product_key id) (stores w (Local 6379))) (consume w))).
  { subst w1. by rewrite redis_del_run by (by apply planned_nil). }
  assert (Hp1 : planned w1 = None).
  { apply planned_nil. rewrite Hw1. simpl. by rewrite Hf. }
  assert (Hc1 : cached_at w1 (product_key id) = None).
  { unfold cached_at, lookup_live. rewrite Hw1. simpl.
    by rewrite set_store_same, lookup_delete_eq. }
  split; [|split].
  - rewrite redis_del_run by (by apply planned_nil). cbn [fst server_of].
    unfold cached_at. by destruct (lookup_live _ _ _).
  - intros out. subst out.
    rewrite (products_miss JSON_stringify JSON_parse db id w1 product);
      [|done|by rewrite Hc1|done|].
    + cbn [fst snd]. split; [done|]. split.
      * rewrite Hw1. simpl.
        by rewrite db_calls_cons_set, db_calls_cons_find, db_calls_cons_get.
      * rewrite Hw1. simpl. by rewrite set_store_same, lookup_insert_eq.
    + apply planned_nil. rewrite Hw1. simpl. by rewrite Hf.
  - intros Ht out. subst out.
    rewrite (router_miss JSON_stringify JSON_parse db id w1 product);
      [|done|by rewrite Hc1|done|done|].
    + cbn [fst snd]. split; [done|].
      rewrite Hw1. simpl.
      by rewrite db_calls_cons_set, db_calls_cons_find, db_calls_cons_get.
    + apply planned_nil. rewrite Hw1. simpl. by rewrite Hf.
Qed.

Lemma del_forces_recompute_witness :
  fst (del_product_123 (world_holding "product:123" "7" 3600)) = Ok 1 /\
  fst (get_products_id atom_stringify atom_parse (fun _ => Ok (JNum 8)) "123"
         (at_time 5 (snd (del_product_123 (world_holding "product:123" "7" 3600)))))
    = Ok (Json 200 (JNum 8)) /\
  fst (router_get_id atom_stringify atom_parse (fun _ => Ok (JNum 8)) "123"
         (at_time 5 (snd (del_product_123 (world_holding "product:123" "7" 3600)))))
    = Ok (Json 200 (JObj [("source", JStr "db"); ("data", JNum 8)])).
Proof.
  destruct (del_forces_recompute atom_stringify atom_parse (fun _ => Ok (JNum 8))
              "123" (JNum 8) (world_holding "product:123" "7" 3600) 5)
    as (H1 & (H2 & _) & H3).
  - reflexivity.
  - reflexivity.
  - destruct H3 as [H3 _]; [reflexivity|].
    exact (conj H1 (conj H2 H3)).
Defined.

(** ** Edges of the lookup *)

(** A key that holds the empty string counts as absent, since the handlers
    test the reply of [get] for truthiness: the value is computed and the
    entry overwritten, in all three handlers. *)
Theorem empty_entry_is_a_miss
    (JSON_stringify : json -> string) (JSON_parse : string -> Result json)
    (db : string -> Result json) (id : string) (product : json) (w : World) :
  faults w = [] ->
  cached_at w (product_key id) = Some "" ->
  db id = Ok product ->
  (fst (get_products_id JSON_stringify JSON_parse db id w) = Ok (Json 200 product) /\
   stores (snd (get_products_id JSON_stringify JSON_parse db id w)) (Local 6379)
       !! product_key id
     = Some (mkEntry (JSON_stringify product) (Some (now w + 3600)))) /\
  (js_truthy product = true ->
   fst (router_get_id JSON_stringify JSON_parse db id w)
     = Ok (Json 200 (JObj [("source", JStr "db"); ("data", product)])) /\
   In (EFindById id) (trace (snd (router_get_id JSON_stringify JSON_parse db id w)))) /\
  (cached_at w "news:all" = Some "" ->
   fst (get_news JSON_stringify w) = Ok news_from_db /\
   In EFakeNews (trace (snd (get_news JSON_stringify w)))).
Proof.
  intros Hf Hc Hdb.
  assert (Hp : planned w = None) by (by apply planned_nil).
  assert (Hp2 : forall ev, planned (issue ev w) = None)
    by (intros; apply planned_nil; simpl; by rewrite Hf).
  split; [|split].
  - rewrite (products_miss JSON_stringify JSON_parse db id w product);
      [|done|by rewrite Hc|done|done].
    split; [done|]. simpl. by rewrite set_store_same, lookup_insert_eq.
  - intros Ht.
    rewrite (router_miss JSON_stringify JSON_parse db id w product);
      [|done|by rewrite Hc|done|done|done].
    split; [done|]. simpl. auto.
  - intros Hn. unfold get_news.
    erewrite try_catch_Ok; last first.
    { erewrite bind_Ok; [|by apply redis_get_run].
      cbn [server_of]. fold (cached_at w "news:all"). rewrite Hn.
      change (truthy_reply (Some "")) with false. cbv iota.
      erewrite bind_Ok; [|reflexivity].
      erewrite bind_Ok; [reflexivity|].
      apply redis_set_run; [|lia].
      apply planned_nil. simpl. by rewrite Hf. }
    split; [done|]. simpl. auto.
Qed.

Lemma empty_entry_is_a_miss_witness :
  fst (get_products_id atom_stringify atom_parse (fun _ => Ok (JNum 8)) "42"
         (world_holding "product:42" "" 3600))
    = Ok (Json 200 (JNum 8)) /\
  stores (snd (get_products_id atom_stringify atom_parse (fun _ => Ok (JNum 8)) "42"
                 (world_holding "product:42" "" 3600))) (Local 6379)
      !! product_key "42"
    = Some (mkEntry (atom_stringify (JNum 8))
              (Some (now (world_holding "product:42" "" 3600) + 3600))) /\
  fst (router_get_id atom_stringify atom_parse (fun _ => Ok (JNum 8)) "42"
         (world_holding "product:42" "" 3600))
    = Ok (Json 200 (JObj [("source", JStr "db"); ("data", JNum 8)])).
Proof.
  destruct (empty_entry_is_a_miss atom_stringify atom_parse (fun _ => Ok (JNum 8))
              "42" (JNum 8) (world_holding "product:42" "" 3600))
    as ((H1 & H2) & H3 & _).
  - reflexivity.
  - reflexivity.
  - reflexivity.
  - destruct H3 as [H3 _]; [reflexivity|].
    exact (conj H1 (conj H2 H3)).
Defined.

(** [router.get("/:id")] and [app.get("/news")] always answer: whatever the
    request, the servers, the codec, the source of truth and the faults, the
    promise of the handler is fulfilled with a JSON reply, of status 200, 404
    or 500 for the first and 200 or 500 for the second; neither ever calls
    [next] or lets a rejection escape. *)
Theorem catching_handlers_always_answer
    (JSON_stringify : json -> string) (JSON_parse : string -> Result json)
    (db : string -> Result json) (id : string) (w : World) :
  (exists status body,
     fst (router_get_id JSON_stringify JSON_parse db id w) = Ok (Json status body) /\
     (status = 200 \/ status = 404 \/ status = 500)) /\
  (exists status body,
     fst (get_news JSON_stringify w) = Ok (Json status body) /\
     (status = 200 \/ status = 500)).
Proof.
  split.
  - unfold router_get_id, try_catch.
    match goal with |- context [match ?m w with _ => _ end] => destruct (m w) as [[r|msg] w1] eqn:Hrun end.
    + cbn [fst]. revert Hrun. unfold bind at 1.
      destruct (redis_get _ _ _) as [[cached|?] w2]; [|discriminate].
      destruct (truthy_reply cached).
      * unfold bind at 1. destruct (parse_reply _ _ _) as [[v|?] w3]; [|discriminate].
        intros [= <- _]. eauto 6.
      * unfold bind at 1. destruct (findById _ _ _) as [[product|?] w3]; [|discriminate].
        destruct (negb (js_truthy product)).
        -- intros [= <- _]. eauto 6.
        -- unfold bind at 1. destruct (redis_set _ _ _ _ _) as [[?|?] w4]; [|discriminate].
           intros [= <- _]. eauto 6.
    + cbn [fst]. unfold ret. cbn [fst]. eauto 6.
  - unfold get_news, try_catch.
    match goal with |- context [match ?m w with _ => _ end] => destruct (m w) as [[r|msg] w1] eqn:Hrun end.
    + cbn [fst]. revert Hrun. unfold bind at 1.
      destruct (redis_get _ _ _) as [[cached|?] w2]; [|discriminate].
      destruct (truthy_reply cached).
      * intros [= <- _]. eauto 6.
      * unfold bind at 1. destruct (getFakeNewsFromDb _) as [[news|?] w3]; [|discriminate].
        unfold bind at 1. destruct (redis_set _ _ _ _ _) as [[?|?] w4]; [|discriminate].
        intros [= <- _]. eauto 6.
    + cbn [fst]. unfold ret. cbn [fst]. eauto 6.
Qed.

(** [router.get("/:id")] never remembers that a product is missing: with
    no entry under the key, every request for an id the source of truth
    does not know consults it again and is answered 404, and the servers
    stay as they were. *)
Theorem router_never_caches_not_found
    (JSON_stringify : json -> string) (JSON_parse : string -> Result json)
    (db : string -> Result json) (id : string) (missing : json) (ts : list Z) :
  db id = Ok missing ->
  js_truthy missing = false ->
  forall w : World,
  faults w = [] ->
  stores w (Local 6379) !! product_key id = None ->
  let out := serve (router_get_id JSON_stringify JSON_parse db id) ts w in
  fst out = replicate (length ts) (Ok (Json 404 (JObj [("message", JStr "Not found")]))) /\
  db_calls (trace (snd out)) = (length ts + db_calls (trace w))%nat /\
  stores (snd out) = stores w.
Proof.
  intros Hdb Hfalsy.
  induction ts as [|t ts IH]; intros w Hf Hnone out.
  - done.
  - subst out.
    pose proof (router_not_found JSON_stringify JSON_parse db id (at_time t w) missing)
      as Hrun.
    destruct (IH (note (EFindById id) (issue (EGet redis (product_key id)) (at_time t w))))
      as (Hr & Hcalls & Hst); [by simpl; rewrite Hf|done|].
    destruct (serve _ ts (note _ _)) as [rs w'] eqn:Hserve.
    erewrite serve_cons; [| |exact Hserve].
    + cbn [fst snd] in *. rewrite Hr, Hcalls, Hst. split; [done|]. split; [|done].
      simpl. rewrite db_calls_cons_find, db_calls_cons_get. lia.
    + apply Hrun; [by apply planned_nil| |done..].
      unfold cached_at, lookup_live. simpl. by rewrite Hnone.
Qed.

Lemma router_never_caches_not_found_witness :
  fst (serve (router_get_id atom_stringify atom_parse (fun _ => Ok JNull) "42")
         [0; 0; 5] fresh_world)
    = replicate (length [0; 0; 5]) (Ok (Json 404 (JObj [("message", JStr "Not found")]))) /\
  db_calls (trace (snd (serve (router_get_id atom_stringify atom_parse
                                 (fun _ => Ok JNull) "42") [0; 0; 5] fresh_world)))
    = (length [0; 0; 5] + db_calls (trace fresh_world))%nat /\
  stores (snd (serve (router_get_id atom_stringify atom_parse (fun _ => Ok JNull) "42")
                 [0; 0; 5] fresh_world))
    = stores fresh_world.
Proof.
  apply (router_never_caches_not_found atom_stringify atom_parse (fun _ => Ok JNull)
           "42" JNull [0; 0; 5]).
  - reflexivity.
  - reflexivity.
  - reflexivity.
  - reflexivity.
Defined.

Lemma news_hit (JSON_stringify : json -> string) (w : World) (s : string) :
  planned w = None ->
  cached_at w "news:all" = Some s ->
  s <> "" ->
  get_news JSON_stringify w
    = (Ok (Json 200 (JObj [("success", JBool true); ("source", JStr "cache");
                           ("data", JStr s)])),
       issue (EGet redis "news:all") w).
Proof.
  intros Hp Hc Hs. unfold get_news.
  apply try_catch_Ok.
  erewrite bind_Ok; [|by apply redis_get_run].
  cbn [server_of]. fold (cached_at w "news:all"). rewrite Hc.
  by rewrite truthy_reply_Some.
Qed.

(** When the server behind [redis] does hold the feed, put there by some
    other writer, [app.get("/news")] answers from it while the entry is
    live, without computing and without writing; the [data] of the reply is
    then the stored string as it is, not the list that the computed reply
    carries. *)
Theorem news_hit_hands_out_the_raw_string
    (JSON_stringify : json -> string) (s : string) (d : Z) (ts : list Z) (w : World) :
  faults w = [] ->
  stores w (Local 6379) !! "news:all" = Some (mkEntry s (Some d)) ->
  s <> "" ->
  Forall (fun t => t < d) ts ->
  let out := serve (get_news JSON_stringify) ts w in
  fst out = replicate (length ts)
              (Ok (Json 200 (JObj [("success", JBool true); ("source", JStr "cache");
                                   ("data", JStr s)]))) /\
  db_calls (trace (snd out)) = db_calls (trace w) /\
  stores (snd out) = stores w.
Proof.
  intros Hf He Hs Hts out.
  destruct (served_from_cache (get_news JSON_stringify)
              (Json 200 (JObj [("success", JBool true); ("source", JStr "cache");
                               ("data", JStr s)]))
              "news:all" s d ts) with (w := w) as (w' & Hserve & Hst & Hcalls);
    [|done..|].
  - intros w1 Hp Hc. by apply news_hit.
  - subst out. by rewrite Hserve.
Qed.

Lemma news_hit_hands_out_the_raw_string_witness :
  fst (serve (get_news atom_stringify) [0; 599] (world_holding "news:all" "[1,2]" 600))
    = replicate (length [0; 599])
        (Ok (Json 200 (JObj [("success", JBool true); ("source", JStr "cache");
                             ("data", JStr "[1,2]")]))) /\
  db_calls (trace (snd (serve (get_news atom_stringify) [0; 599]
                          (world_holding "news:all" "[1,2]" 600))))
    = db_calls (trace (world_holding "news:all" "[1,2]" 600)) /\
  stores (snd (serve (get_news atom_stringify) [0; 599]
                 (world_holding "news:all" "[1,2]" 600)))
    = stores (world_holding "news:all" "[1,2]" 600).
Proof.
  apply (news_hit_hands_out_the_raw_string atom_stringify "[1,2]" 600 [0; 599]
           (world_holding "news:all" "[1,2]" 600)).
  - reflexivity.
  - by vm_compute.
  - discriminate.
  - repeat constructor; lia.
Defined.

(** * Further properties of the rate limiter *)

(** ** One counter per address *)

Lemma rate_key_inj ip ip' : rate_key ip = rate_key ip' -> ip = ip'.
Proof. unfold rate_key. simpl. by intros [= H]. Qed.

Section TouchesOnly.

Variable key : string.

Lemma touches_only_ret {A} (a : A) : touches_only key (ret a).
Proof. by intros w. Qed.

Lemma touches_only_bind {A B} (m : M A) (k : A -> M B) :
  touches_only key m -> (forall a, touches_only key (k a)) ->
  touches_only key (bind m k).
Proof.
  intros Hm Hk w. destruct (Hm w) as [Hst Hf]. unfold bind.
  destruct (m w) as [[a|msg] w1]; [|done].
  destruct (Hk a w1) as [Hst' Hf']. split.
  - intros sv k0 Hne. rewrite Hst' by done. by apply Hst.
  - intros H. apply Hf'. by apply Hf.
Qed.

Lemma touches_only_if {A} (b : bool) (m1 m2 : M A) :
  touches_only key m1 -> touches_only key m2 ->
  touches_only key (if b then m1 else m2).
Proof. by destruct b. Qed.

Lemma touches_only_command {A} c ev
    (run : gmap string Entry -> Z -> Result A * gmap string Entry) :
  (forall st t k, k <> key -> snd (run st t) !! k = st !! k) ->
  touches_only key (command c ev run).
Proof.
  intros Hrun w. unfold command.
  destruct (planned w) as [msg|]; cbn zeta.
  - split; [done|]. simpl. by intros ->.
  - specialize (Hrun (stores w (server_of w c)) (now w)).
    destruct (run _ _) as [r st']. split.
    + intros sv k Hne. simpl. unfold set_store. case_decide; [|done].
      subst sv. by apply Hrun.
    + simpl. by intros ->.
Qed.

Lemma touches_only_incr c : touches_only key (redis_incr c key).
Proof.
  apply touches_only_command. intros st t k Hne.
  destruct (lookup_live st t key) as [e|]; [destruct (Z_of_string (payload e))|];
    simpl; by rewrite ?lookup_insert_ne.
Qed.

Lemma touches_only_expire c secs : touches_only key (redis_expire c key secs).
Proof.
  apply touches_only_command. intros st t k Hne.
  destruct (lookup_live st t key) as [e|]; [destruct (secs <=? 0)|];
    simpl; by rewrite ?lookup_insert_ne, ?lookup_delete_ne.
Qed.

End TouchesOnly.

Lemma limiter_touches_only_its_key (wnd m : Z) (ip : string) :
  touches_only (rate_key ip) (rateLimiterWith wnd m ip).
Proof.
  unfold rateLimiterWith. fold (rate_key ip).
  apply touches_only_bind; [apply touches_only_incr|]. intros count.
  apply touches_only_bind.
  - apply touches_only_if; [|apply touches_only_ret].
    apply touches_only_bind; [apply touches_only_expire|].
    intros; apply touches_only_ret.
  - intros _. apply touches_only_if; apply touches_only_ret.
Qed.

(** A counter as the limiter leaves it: none, or a positive count. *)
Lemma limiter_same_counter_same_reply (wnd m : Z) (ip : string) (w1 w2 : World) :
  0 < wnd ->
  faults w1 = [] -> faults w2 = [] ->
  now w1 = now w2 ->
  counter w1 ip = counter w2 ip ->
  (counter w1 ip = None \/
   exists n d, 1 <= n /\ counter w1 ip = Some (mkEntry (string_of_Z n) d)) ->
  exists r w1' w2',
    rateLimiterWith wnd m ip w1 = (r, w1') /\
    rateLimiterWith wnd m ip w2 = (r, w2') /\
    faults w1' = [] /\ faults w2' = [] /\
    counter w1' ip = counter w2' ip /\
    exists n d, 1 <= n /\ counter w1' ip = Some (mkEntry (string_of_Z n) d).
Proof.
  intros Hwnd Hf1 Hf2 Hnow Hc Hwf.
  destruct (lookup_live (stores w1 (Local 6379)) (now w1) (rate_key ip)) as [e|] eqn:Hlive.
  - (* a live counter: by the invariant it is a positive count *)
    assert (exists n d, 1 <= n /\ counter w1 ip = Some (mkEntry (string_of_Z n) d) /\
                        live (now w1) (mkEntry (string_of_Z n) d) = true)
      as (n & d & Hn & Hc1 & Hl).
    { destruct Hwf as [Hnone|(n & d & Hn & Hc1)].
      - unfold counter in Hnone. unfold lookup_live in Hlive. by rewrite Hnone in Hlive.
      - exists n, d. split; [done|]. split; [done|].
        unfold counter in Hc1. unfold lookup_live in Hlive. rewrite Hc1 in Hlive.
        by destruct (live _ _). }
    destruct (limiter_counts wnd m ip w1 n d) as (w1' & Hr1 & Hf1' & Hc1' & _);
      [lia|done|done|done|].
    destruct (limiter_counts wnd m ip w2 n d) as (w2' & Hr2 & Hf2' & Hc2' & _);
      [lia|done|by rewrite <- Hc|by rewrite <- Hnow|].
    exists (Ok (verdict m (n + 1))), w1', w2'.
    repeat (split; [done|]). split; [by rewrite Hc1', Hc2'|].
    exists (n + 1), d. split; [lia|done].
  - destruct (limiter_opens_window wnd m ip w1) as (w1' & Hr1 & Hf1' & Hc1' & _);
      [done|done|done|].
    destruct (limiter_opens_window wnd m ip w2) as (w2' & Hr2 & Hf2' & Hc2' & _);
      [done|done| |].
    { unfold no_counter, lookup_live. unfold counter in Hc. rewrite <- Hc, <- Hnow.
      exact Hlive. }
    exists (Ok (verdict m 1)), w1', w2'.
    repeat (split; [done|]). split; [by rewrite Hc1', Hc2', Hnow|].
    exists 1, (Some (now w1 + wnd)). split; [lia|done].
Qed.

Lemma serve_requests_cons (h : string -> M Reply) t ip rest w r w1 rs w2 :
  h ip (at_time t w) = (r, w1) ->
  serve_requests h rest w1 = (rs, w2) ->
  serve_requests h ((t, ip) :: rest) w = ((ip, r) :: rs, w2).
Proof. intros H1 H2. simpl. by rewrite H1, H2. Qed.

Lemma limiter_simulation (wnd m : Z) (ip : string) (reqs : list (Z * string)) :
  0 < wnd ->
  forall w1 w2 : World,
  faults w1 = [] -> faults w2 = [] ->
  counter w1 ip = counter w2 ip ->
  (counter w1 ip = None \/
   exists n d, 1 <= n /\ counter w1 ip = Some (mkEntry (string_of_Z n) d)) ->
  replies_to ip (fst (serve_requests (rateLimiterWith wnd m) reqs w1))
    = fst (serve (rateLimiterWith wnd m ip) (times_of ip reqs) w2).
Proof.
  intros Hwnd.
  induction reqs as [|[t ip'] rest IH]; intros w1 w2 Hf1 Hf2 Hc Hwf; [done|].
  destruct (decide (ip' = ip)) as [->|Hne].
  - destruct (limiter_same_counter_same_reply wnd m ip (at_time t w1) (at_time t w2))
      as (r & w1' & w2' & Hr1 & Hr2 & Hf1' & Hf2' & Hc' & Hwf'); [done..|].
    specialize (IH w1' w2' Hf1' Hf2' Hc' (or_intror Hwf')).
    destruct (serve_requests _ rest w1') as [rs1 w1''] eqn:Hs1.
    destruct (serve _ (times_of ip rest) w2') as [rs2 w2''] eqn:Hs2.
    erewrite serve_requests_cons; [|exact Hr1|exact Hs1].
    unfold times_of. rewrite filter_cons_True by done. rewrite fmap_cons.
    erewrite serve_cons; [|exact Hr2|exact Hs2].
    unfold replies_to. cbn [fst snd] in *. rewrite filter_cons_True by done.
    rewrite fmap_cons. cbn [snd]. f_equal. exact IH.
  - destruct (limiter_touches_only_its_key wnd m ip' (at_time t w1)) as [Hst Hf].
    destruct (rateLimiterWith wnd m ip' (at_time t w1)) as [r w1'] eqn:Hr.
    cbn [snd] in Hst, Hf.
    assert (Hc1 : counter w1' ip = counter w1 ip).
    { unfold counter. rewrite Hst; [done|]. intros H. by apply rate_key_inj in H. }
    specialize (IH w1' w2 (Hf Hf1) Hf2).
    rewrite Hc1 in IH. specialize (IH Hc Hwf).
    destruct (serve_requests _ rest w1') as [rs1 w1''] eqn:Hs1.
    erewrite serve_requests_cons; [|exact Hr|exact Hs1].
    unfold times_of. rewrite filter_cons_False by (simpl; congruence).
    unfold replies_to. cbn [fst]. rewrite filter_cons_False by (simpl; congruence).
    exact IH.
Qed.

(** Addresses do not interfere: in any fault-free sequence of requests from
    any addresses, the replies that an address with no counter yet receives
    are the replies it would receive if its requests were the only ones: the
    count of one address is never spent by another. *)
Theorem limiter_addresses_do_not_interfere
    (wnd m : Z) (ip : string) (reqs : list (Z * string)) (w : World) :
  0 < wnd ->
  faults w = [] ->
  counter w ip = None ->
  replies_to ip (fst (serve_requests (rateLimiterWith wnd m) reqs w))
    = fst (serve (rateLimiterWith wnd m ip) (times_of ip reqs) w).
Proof.
  intros Hwnd Hf Hc. apply limiter_simulation; auto.
Qed.

Lemma limiter_addresses_do_not_interfere_witness :
  replies_to "1.2.3.4"
    (fst (serve_requests rateLimiter
            [(0, "1.2.3.4"); (1, "5.6.7.8"); (1, "5.6.7.8"); (2, "1.2.3.4")]
            fresh_world))
    = fst (serve (rateLimiter "1.2.3.4")
             (times_of "1.2.3.4"
                [(0, "1.2.3.4"); (1, "5.6.7.8"); (1, "5.6.7.8"); (2, "1.2.3.4")])
             fresh_world).
Proof.
  apply (limiter_addresses_do_not_interfere 60 10 "1.2.3.4"
           [(0, "1.2.3.4"); (1, "5.6.7.8"); (1, "5.6.7.8"); (2, "1.2.3.4")]
           fresh_world).
  - lia.
  - reflexivity.
  - reflexivity.
Defined.

(** ** A counter left without expiry *)

Lemma serve_counter_without_expiry (wnd m : Z) (ip : string) (ts : list Z) :
  forall (w : World) (n : Z),
  1 <= n ->
  faults w = [] ->
  counter w ip = Some (mkEntry (string_of_Z n) None) ->
  exists w',
    serve (rateLimiterWith wnd m ip) ts w = (verdicts m n (length ts), w') /\
    counter w' ip = Some (mkEntry (string_of_Z (n + Z.of_nat (length ts))) None) /\
    count_expire (rate_key ip) (trace w') = count_expire (rate_key ip) (trace w).
Proof.
  induction ts as [|t ts IH]; intros w n Hn Hf Hc.
  - exists w. simpl. rewrite Z.add_0_r. done.
  - destruct (limiter_counts wnd m ip (at_time t w) n None)
      as (w1 & Hrun & Hf1 & Hc1 & Htr1); [lia|done|done|done|].
    destruct (IH w1 (n + 1)) as (w2 & Hserve & Hc2 & Htr2); [lia|done|done|].
    exists w2. split; [|split].
    + erewrite serve_cons; [|exact Hrun|exact Hserve].
      unfold verdicts. rewrite (seqZ_cons (n + 1)) by (simpl length; lia).
      rewrite fmap_cons.
      replace (Z.pred (Z.of_nat (length (t :: ts)))) with (Z.of_nat (length ts))
        by (simpl length; lia).
      by replace (Z.succ (n + 1)) with (n + 1 + 1) by lia.
    + rewrite Hc2.
      by replace (n + 1 + Z.of_nat (length ts)) with (n + Z.of_nat (length (t :: ts)))
        by (simpl length; lia).
    + rewrite Htr2, Htr1. simpl trace. apply count_expire_cons_incr.
Qed.

(** If the [EXPIRE] of the call that creates a counter is rejected, the call
    fails and the counter stays at 1 with no expiry. No later call sets one:
    from then on the address is counted for ever, at whatever times it
    calls, so its call number [m + 1] and all that follow are turned away
    and no window ever starts again. *)
Theorem limiter_failed_expire_blocks_for_ever
    (wnd m : Z) (ip msg : string) (ts : list Z) (w : World) :
  faults w = [None; Some msg] ->
  no_counter w ip (now w) ->
  let out := rateLimiterWith wnd m ip w in
  let later := serve (rateLimiterWith wnd m ip) ts (snd out) in
  fst out = Throw msg /\
  counter (snd out) ip = Some (mkEntry (string_of_Z 1) None) /\
  (forall (k : nat) (r : Result Reply),
     fst later !! k = Some r ->
     (Z.of_nat k + 2 <= m -> r = Ok Next) /\
     (m < Z.of_nat k + 2 -> r = Ok too_many_requests)) /\
  counter (snd later) ip
    = Some (mkEntry (string_of_Z (1 + Z.of_nat (length ts))) None) /\
  count_expire (rate_key ip) (trace (snd later))
    = count_expire (rate_key ip) (trace (snd out)).
Proof.
  intros Hf Hno out later.
  assert (Hout : out = (Throw msg,
            issue (EExpire redis (rate_key ip) wnd)
              (put_store (Local 6379)
                 (<[rate_key ip := mkEntry (string_of_Z 1) None]> (stores w (Local 6379)))
                 (issue (EIncr redis (rate_key ip)) w)))).
  { subst out. unfold rateLimiterWith. fold (rate_key ip).
    erewrite bind_Ok; last first.
    { apply redis_incr_fresh; [unfold planned; by rewrite Hf|exact Hno]. }
    change (1 =? 1) with true. cbv iota.
    apply bind_Throw. apply bind_Throw.
    unfold redis_expire, command, planned. simpl. by rewrite Hf. }
  assert (Hc : counter (snd out) ip = Some (mkEntry (string_of_Z 1) None)).
  { rewrite Hout. unfold counter. simpl. by rewrite set_store_same, lookup_insert_eq. }
  destruct (serve_counter_without_expiry wnd m ip ts (snd out) 1)
    as (w' & Hserve & Hc' & Htr); [lia| |done|].
  { rewrite Hout. simpl. by rewrite Hf. }
  subst later. rewrite Hserve. cbn [fst snd].
  split; [by rewrite Hout|]. split; [done|]. split; [|by split].
  intros k r Hk. apply verdicts_lookup in Hk as [-> _].
  split; intros H.
  - rewrite verdict_within; [done|lia].
  - rewrite verdict_beyond; [done|lia].
Qed.

Lemma limiter_failed_expire_blocks_for_ever_witness :
  fst (rateLimiter "1.2.3.4" (world_with_faults [None; Some "ECONNRESET"]))
    = Throw "ECONNRESET" /\
  counter (snd (rateLimiter "1.2.3.4" (world_with_faults [None; Some "ECONNRESET"])))
      "1.2.3.4"
    = Some (mkEntry (string_of_Z 1) None) /\
  counter (snd (serve (rateLimiter "1.2.3.4") [1; 100; 100000]
                  (snd (rateLimiter "1.2.3.4"
                          (world_with_faults [None; Some "ECONNRESET"])))))
      "1.2.3.4"
    = Some (mkEntry (string_of_Z (1 + Z.of_nat (length [1; 100; 100000]))) None).
Proof.
  destruct (limiter_failed_expire_blocks_for_ever 60 10 "1.2.3.4" "ECONNRESET"
              [1; 100; 100000] (world_with_faults [None; Some "ECONNRESET"]))
    as (H1 & H2 & _ & H3 & _).
  - reflexivity.
  - reflexivity.
  - exact (conj H1 (conj H2 H3)).
Defined.

(** ** Two windows back to back *)

Lemma serve_app (h : M Reply) (ts1 ts2 : list Z) (w : World) :
  serve h (ts1 ++ ts2)%list w
    = ((fst (serve h ts1 w) ++ fst (serve h ts2 (snd (serve h ts1 w))))%list,
       snd (serve h ts2 (snd (serve h ts1 w)))).
Proof.
  revert w. induction ts1 as [|t ts1 IH]; intros w.
  - simpl. by destruct (serve h ts2 w).
  - simpl. destruct (h (at_time t w)) as [r w1]. rewrite IH.
    destruct (serve h ts1 w1) as [rs1 w2]. simpl.
    by destruct (serve h ts2 w2).
Qed.

Lemma verdicts_all_pass (m : Z) (len : nat) :
  Z.of_nat len <= m -> verdicts m 0 len = replicate len (Ok Next).
Proof.
  intros Hlen. apply list_eq. intros k.
  destruct (decide (k < len)%nat) as [Hk|Hk].
  - rewrite lookup_replicate_2 by done.
    unfold verdicts. rewrite list_lookup_fmap, lookup_seqZ_lt by lia. simpl.
    rewrite verdict_within; [done|lia].
  - rewrite (lookup_ge_None_2 (replicate len _)) by (rewrite length_replicate; lia).
    apply lookup_ge_None_2. unfold verdicts.
    rewrite length_fmap, length_seqZ. lia.
Qed.

(** The window is fixed, not sliding: an address that opens a window at
    [t0] can place the rest of its [m] calls in the last second of that
    window and [m] more in the first second of the next, and all [2 m] pass,
    [2 m - 1] of them within two consecutive seconds. *)
Theorem limiter_lets_a_double_burst_through
    (ip : string) (wnd : Z) (m : nat) (t0 : Z) (w : World) :
  0 < wnd ->
  (1 <= m)%nat ->
  faults w = [] ->
  no_counter w ip t0 ->
  fst (serve (rateLimiterWith wnd (Z.of_nat m) ip)
         ((t0 :: replicate (m - 1) (t0 + wnd - 1)) ++ replicate m (t0 + wnd))%list w)
    = replicate (2 * m) (Ok Next).
Proof.
  intros Hwnd Hm Hf Hno.
  rewrite serve_app. cbn [fst].
  destruct (serve_window wnd (Z.of_nat m) ip w t0 (replicate (m - 1) (t0 + wnd - 1)))
    as (w1 & Hs1 & Hf1 & Hc1 & _); [done|done|done| |].
  { apply Forall_replicate. lia. }
  rewrite Hs1. cbn [fst snd].
  assert (Hno1 : no_counter w1 ip (t0 + wnd)).
  { unfold no_counter. unfold counter in Hc1.
    eapply lookup_live_expired; [exact Hc1|done|lia]. }
  destruct m as [|m']; [lia|].
  change (replicate (S m') (t0 + wnd)) with ((t0 + wnd) :: replicate m' (t0 + wnd)).
  destruct (serve_window wnd (Z.of_nat (S m')) ip w1 (t0 + wnd) (replicate m' (t0 + wnd)))
    as (w2 & Hs2 & _); [done|done|done| |].
  { apply Forall_replicate. lia. }
  rewrite Hs2. cbn [fst].
  rewrite !length_replicate.
  rewrite !verdicts_all_pass by lia.
  rewrite <- replicate_add. f_equal. lia.
Qed.

Lemma limiter_lets_a_double_burst_through_witness :
  fst (serve (rateLimiter "1.2.3.4")
         ((0 :: replicate (10 - 1) (0 + 60 - 1)) ++ replicate 10 (0 + 60))%list
         fresh_world)
    = replicate (2 * 10) (Ok Next).
Proof.
  apply (limiter_lets_a_double_burst_through "1.2.3.4" 60 10 0 fresh_world).
  - lia.
  - lia.
  - reflexivity.
  - reflexivity.
Defined.

(** * Properties of the registration controllers *)

Ltac run_register :=
  unfold Register.registerUser, Register.ImprovedRegisterUser,
    Register.validateRegisterInput, Register.createUser, Register.sendWelcome,
    Register.ptry, Register.pbind,
    Register.Roles_findOne, Register.User_findOne, Register.randomBytes_hex,
    Register.genSalt, Register.hash, Register.User_create, Register.logActivity,
    Register.sendEmail, Register.awaited, Register.pret, Register.pthrow,
    Register.next_outcome, Register.spend.



Section RegisterProperties.

Variable toLowerCase : string -> string.
Variable randomHex : nat -> string.
Variable bcrypt_salt : Z -> nat -> string.
Variable bcrypt_hash : string -> string -> string.
Variable objectId : list Register.UserDoc -> string.
Variable generateToken : string -> string.

Local Abbreviation registerUser :=
  (Register.registerUser toLowerCase randomHex bcrypt_salt bcrypt_hash objectId
     generateToken).
Local Abbreviation ImprovedRegisterUser :=
  (Register.ImprovedRegisterUser toLowerCase randomHex bcrypt_salt bcrypt_hash
     objectId generateToken).

(** Validation comes first: when a field of the body is missing or empty,
    both controllers answer 400 "All fields are required" and nothing else
    happens: no collection is read, no planned outcome is used up. *)
Theorem register_requires_all_fields (body : Register.Body) (st : Register.App) :
  Register.absent (Register.fullname body) = true \/
  Register.absent (Register.email body) = true \/
  Register.absent (Register.roleName body) = true ->
  registerUser body st
    = (Ok (Json 400 (JObj [("success", JBool false);
                           ("message", JStr "All fields are required")])), st) /\
  ImprovedRegisterUser body st
    = (Ok (Json 400 (JObj [("success", JBool false);
                           ("message", JStr "All fields are required")])), st).
Proof.
  intros H.
  assert (Hor : Register.absent (Register.fullname body)
                || Register.absent (Register.email body)
                || Register.absent (Register.roleName body) = true).
  { destruct H as [->|[->| ->]]; [done| |]; by rewrite ?orb_true_r. }
  run_register. by rewrite Hor.
Qed.



Ltac reg_simpl :=
  cbn [negb orb replicate app head tail default from_option id fst snd
       Register.plan Register.roles Register.users Register.drawn
       Register.activity Register.outbox Register.u_id
       Register.fullname Register.email Register.roleName].

Lemma absent_Some (s : string) : s <> "" -> Register.absent (Some s) = false.
Proof. intros H. simpl. by destruct (String.eqb_spec s ""). Qed.

Lemma find_email_not_elem (mail : string) (l : list Register.UserDoc) :
  mail ∉ Register.u_email <$> l ->
  List.find (fun u => bool_decide (Register.u_email u = mail)) l = None.
Proof.
  induction l as [|u l IH]; simpl; [done|].
  rewrite not_elem_of_cons. intros [Hne Hl].
  rewrite bool_decide_eq_false_2 by congruence. by apply IH.
Qed.

(** A registration that goes through: with the three fields given, the role
    known, the lower-cased address not yet stored and no fault, both
    controllers answer 201 with the new user's data; the user is stored
    under the lower-cased address with the hash of a freshly drawn password,
    one activity is logged, and one mail goes to the address as it was
    typed, with the password in clear in its body. *)
Theorem register_success (name mail role : string) (st : Register.App) :
  name <> "" -> mail <> "" -> role <> "" ->
  role ∈ Register.roles st ->
  toLowerCase mail ∉ Register.u_email <$> Register.users st ->
  Register.plan st = [] ->
  let password := randomHex (Register.drawn st) in
  let user := Register.mkUser (objectId (Register.users st)) name (toLowerCase mail) role
                (bcrypt_hash password (bcrypt_salt 10 (S (Register.drawn st)))) in
  let body := Register.mkBody (Some name) (Some mail) (Some role) in
  let old := registerUser body st in
  let new := ImprovedRegisterUser body st in
  fst old = Ok (Register.created generateToken user) /\
  fst new = Ok (Register.created generateToken user) /\
  Register.users (snd old) = (Register.users st ++ [user])%list /\
  Register.activity (snd old)
    = (Register.activity st ++
       [Register.mkActivity (objectId (Register.users st)) "CREATE_USER"
          ("User " ++ name ++ " was created with role " ++ role)%string])%list /\
  Register.outbox (snd old)
    = (Register.outbox st ++
       [Register.mkMail mail "Welcome onboard" ""
          (Register.welcome_html name mail password)])%list /\
  (exists html, Register.outbox (snd new)
     = (Register.outbox st ++ [Register.mkMail mail "Welcome onboard" "" html])%list).
Proof.
  intros Hname Hmail Hrole Hin Hnew Hplan password user body old new.
  subst old new body. run_register. reg_simpl.
  rewrite !absent_Some by done. reg_simpl. rewrite Hplan. reg_simpl.
  rewrite bool_decide_eq_true_2 by done. reg_simpl.
  rewrite (find_email_not_elem _ _ Hnew).
  rewrite bool_decide_eq_false_2 by (by intros [? ?]). reg_simpl.
  repeat split; try done. eauto.
Qed.

(** Registration is not atomic: when everything succeeds up to the welcome
    mail and the mailer rejects, the user has been stored and the activity
    logged, no mail has left, and yet the caller is told that the
    registration failed, with 500 by [registerUser] and with 400 and the
    mailer's message by [ImprovedRegisterUser]. *)
Theorem register_mail_failure_leaves_the_user
    (name mail role msg : string) (rest : list (option string)) (st : Register.App) :
  name <> "" -> mail <> "" -> role <> "" ->
  role ∈ Register.roles st ->
  toLowerCase mail ∉ Register.u_email <$> Register.users st ->
  Register.plan st = (replicate 6 None ++ Some msg :: rest)%list ->
  let user := Register.mkUser (objectId (Register.users st)) name (toLowerCase mail) role
                (bcrypt_hash (randomHex (Register.drawn st))
                   (bcrypt_salt 10 (S (Register.drawn st)))) in
  let body := Register.mkBody (Some name) (Some mail) (Some role) in
  let old := registerUser body st in
  let new := ImprovedRegisterUser body st in
  fst old = Ok (Json 500 (JObj [("message", JStr "Server error");
                                ("success", JBool false)])) /\
  fst new = Ok (Json 400 (JObj [("success", JBool false);
                                ("message", JStr (if String.eqb msg "" then "Server error"
                                                  else msg))])) /\
  Register.users (snd old) = (Register.users st ++ [user])%list /\
  Register.users (snd new) = (Register.users st ++ [user])%list /\
  length (Register.activity (snd old)) = S (length (Register.activity st)) /\
  Register.outbox (snd old) = Register.outbox st /\
  Register.outbox (snd new) = Register.outbox st.
Proof.
  intros Hname Hmail Hrole Hin Hnew Hplan user body old new.
  subst old new body. run_register. reg_simpl.
  rewrite !absent_Some by done. reg_simpl. rewrite Hplan. reg_simpl.
  rewrite bool_decide_eq_true_2 by done. reg_simpl.
  rewrite (find_email_not_elem _ _ Hnew).
  rewrite bool_decide_eq_false_2 by (by intros [? ?]). reg_simpl.
  repeat split; try done. rewrite length_app. simpl. lia.
Qed.


End RegisterProperties.

(** Sample collaborators to run the controllers. *)
Lemma register_requires_all_fields_witness :
  Register.registerUser Register.lower (fun _ => "00112233aabbccdd") (fun _ _ => "salt")
      (fun data _ => data) (fun _ => "id1") (fun id => id)
      (Register.mkBody (Some "Mubarak") None (Some "admin")) Register.empty_app
    = (Ok (Json 400 (JObj [("success", JBool false);
                           ("message", JStr "All fields are required")])),
       Register.empty_app) /\
  Register.ImprovedRegisterUser Register.lower (fun _ => "00112233aabbccdd")
      (fun _ _ => "salt") (fun data _ => data) (fun _ => "id1") (fun id => id)
      (Register.mkBody (Some "Mubarak") None (Some "admin")) Register.empty_app
    = (Ok (Json 400 (JObj [("success", JBool false);
                           ("message", JStr "All fields are required")])),
       Register.empty_app).
Proof.
  apply (register_requires_all_fields Register.lower (fun _ => "00112233aabbccdd")
           (fun _ _ => "salt") (fun data _ => data) (fun _ => "id1") (fun id => id)
           (Register.mkBody (Some "Mubarak") None (Some "admin")) Register.empty_app).
  right. left. reflexivity.
Defined.


Lemma register_success_witness :
  fst (Register.registerUser Register.lower (fun _ => "00112233aabbccdd")
         (fun _ _ => "salt") (fun data _ => data) (fun _ => "id1") (fun id => id)
         Register.sample_body Register.empty_app)
    = Ok (Register.created (fun id => id)
            (Register.mkUser "id1" "Mubarak" "mubarak@example.com" "admin"
               "00112233aabbccdd")) /\
  fst (Register.ImprovedRegisterUser Register.lower (fun _ => "00112233aabbccdd")
         (fun _ _ => "salt") (fun data _ => data) (fun _ => "id1") (fun id => id)
         Register.sample_body Register.empty_app)
    = Ok (Register.created (fun id => id)
            (Register.mkUser "id1" "Mubarak" "mubarak@example.com" "admin"
               "00112233aabbccdd")) /\
  Register.users
    (snd (Register.registerUser Register.lower (fun _ => "00112233aabbccdd")
            (fun _ _ => "salt") (fun data _ => data) (fun _ => "id1") (fun id => id)
            Register.sample_body Register.empty_app))
    = [Register.mkUser "id1" "Mubarak" "mubarak@example.com" "admin" "00112233aabbccdd"].
Proof.
  destruct (register_success Register.lower (fun _ => "00112233aabbccdd")
              (fun _ _ => "salt") (fun data _ => data) (fun _ => "id1") (fun id => id)
              "Mubarak" "Mubarak@Example.com" "admin" Register.empty_app)
    as (H1 & H2 & H3 & _).
  - discriminate.
  - discriminate.
  - discriminate.
  - simpl. apply list_elem_of_singleton. reflexivity.
  - simpl. apply not_elem_of_nil.
  - reflexivity.
  - exact (conj H1 (conj H2 H3)).
Defined.

Lemma register_mail_failure_leaves_the_user_witness :
  fst (Register.registerUser Register.lower (fun _ => "00112233aabbccdd")
         (fun _ _ => "salt") (fun data _ => data) (fun _ => "id1") (fun id => id)
         Register.sample_body
         {| Register.users := []; Register.roles := ["admin"]; Register.activity := [];
            Register.outbox := []; Register.drawn := 0;
            Register.plan := (replicate 6 None ++ [Some "SMTP down"])%list |})
    = Ok (Json 500 (JObj [("message", JStr "Server error"); ("success", JBool false)])) /\
  Register.users
    (snd (Register.registerUser Register.lower (fun _ => "00112233aabbccdd")
            (fun _ _ => "salt") (fun data _ => data) (fun _ => "id1") (fun id => id)
            Register.sample_body
            {| Register.users := []; Register.roles := ["admin"]; Register.activity := [];
               Register.outbox := []; Register.drawn := 0;
               Register.plan := (replicate 6 None ++ [Some "SMTP down"])%list |}))
    = [Register.mkUser "id1" "Mubarak" "mubarak@example.com" "admin" "00112233aabbccdd"].
Proof.
  destruct (register_mail_failure_leaves_the_user Register.lower
              (fun _ => "00112233aabbccdd") (fun _ _ => "salt") (fun data _ => data)
              (fun _ => "id1") (fun id => id)
              "Mubarak" "Mubarak@Example.com" "admin" "SMTP down" []
              {| Register.users := []; Register.roles := ["admin"];
                 Register.activity := []; Register.outbox := []; Register.drawn := 0;
                 Register.plan := (replicate 6 None ++ [Some "SMTP down"])%list |})
    as (H1 & _ & H3 & _).
  - discriminate.
  - discriminate.
  - discriminate.
  - simpl. apply list_elem_of_singleton. reflexivity.
  - simpl. apply not_elem_of_nil.
  - reflexivity.
  - exact (conj H1 H3).
Defined.

(** * Properties of the cookie session and of the protected route *)

Lemma sent_receive_set t0 t jar name value options :
  Auth.sent t (Auth.receive t0 [Auth.SetCookie name value options] jar) name
    = if t <? t0 + Auth.maxAge options then Some value else None.
Proof. unfold Auth.sent, Auth.receive. simpl. by rewrite lookup_insert_eq. Qed.

(** The session, from the browser's side. After a login with the fixed
    credentials the browser holds the token for an hour: during that hour
    [/profile] answers what the verification of that very token gives, 200
    with the address or 401 "Invalid token"; from the hour on, and after a
    [/logout] at any time, the cookie is no longer sent and [/profile]
    answers 401 "No token" without verifying anything. A login with any
    other credentials answers 401 and leaves the browser's cookies alone. *)
Theorem session_flow
    (jwt_sign : json -> string -> string -> string)
    (jwt_verify : Z -> string -> string -> Result json)
    (jar0 : gmap string (string * Z)) (t0 : Z) :
  let token := jwt_sign (JObj [("email", JStr "test@example.com")]) Auth.JWT_SECRET "1h" in
  let jar1 := Auth.receive t0
                (Auth.cookie_ops (Auth.login jwt_sign (Some "test@example.com")
                                    (Some "password"))) jar0 in
  token <> "" ->
  (forall t, t0 <= t < t0 + 3600000 ->
     Auth.reply (Auth.profile jwt_verify t (Auth.sent t jar1 "token"))
       = match jwt_verify t token Auth.JWT_SECRET with
         | Ok data => Json 200 (Auth.profile_body data)
         | Throw _ => Json 401 (JObj [("message", JStr "Invalid token")])
         end) /\
  (forall t, t0 + 3600000 <= t ->
     Auth.reply (Auth.profile jwt_verify t (Auth.sent t jar1 "token"))
       = Json 401 (JObj [("message", JStr "No token")])) /\
  (forall t1 t,
     Auth.reply (Auth.profile jwt_verify t
                   (Auth.sent t (Auth.receive t1 (Auth.cookie_ops Auth.logout) jar1)
                      "token"))
       = Json 401 (JObj [("message", JStr "No token")])) /\
  (forall email password,
     ~ (email = Some "test@example.com" /\ password = Some "password") ->
     Auth.reply (Auth.login jwt_sign email password)
       = Json 401 (JObj [("message", JStr "Invalid credentials")]) /\
     Auth.receive t0 (Auth.cookie_ops (Auth.login jwt_sign email password)) jar0 = jar0).
Proof.
  intros token jar1 Htoken.
  assert (Hjar : forall t, Auth.sent t jar1 "token"
                           = if t <? t0 + 3600000 then Some token else None).
  { intros t. subst jar1. unfold Auth.login. simpl bool_decide. cbn [andb Auth.cookie_ops].
    by rewrite sent_receive_set. }
  repeat split.
  - intros t Ht. rewrite Hjar.
    destruct (Z.ltb_spec t (t0 + 3600000)); [|lia].
    unfold Auth.profile. rewrite truthy_reply_Some by done. cbn [negb default from_option id].
    fold token. by destruct (jwt_verify t token Auth.JWT_SECRET).
  - intros t Ht. rewrite Hjar.
    by destruct (Z.ltb_spec t (t0 + 3600000)); [lia|].
  - intros t1 t. unfold Auth.sent, Auth.receive. simpl.
    by rewrite lookup_delete_eq.
  - unfold Auth.login.
    destruct (bool_decide_reflect (email = Some "test@example.com"));
      destruct (bool_decide_reflect (password = Some "password")); simpl; tauto.
  - unfold Auth.login.
    destruct (bool_decide_reflect (email = Some "test@example.com"));
      destruct (bool_decide_reflect (password = Some "password")); simpl; tauto.
Qed.

Lemma session_flow_witness :
  Auth.reply (Auth.profile (fun _ _ _ => Ok (JObj [("email", JStr "test@example.com")]))
                5 (Auth.sent 5
                     (Auth.receive 0
                        (Auth.cookie_ops (Auth.login (fun _ _ _ => "header.payload.signature")
                                            (Some "test@example.com") (Some "password")))
                        ∅) "token"))
    = Json 200 (JObj [("email", JStr "test@example.com")]) /\
  Auth.reply (Auth.profile (fun _ _ _ => Ok (JObj [("email", JStr "test@example.com")]))
                3600000 (Auth.sent 3600000
                     (Auth.receive 0
                        (Auth.cookie_ops (Auth.login (fun _ _ _ => "header.payload.signature")
                                            (Some "test@example.com") (Some "password")))
                        ∅) "token"))
    = Json 401 (JObj [("message", JStr "No token")]).
Proof.
  destruct (session_flow (fun _ _ _ => "header.payload.signature")
              (fun _ _ _ => Ok (JObj [("email", JStr "test@example.com")])) ∅ 0)
    as (H1 & H2 & _).
  - discriminate.
  - split; [apply (H1 5); lia|apply (H2 3600000); lia].
Defined.

Lemma includes_true (l : list string) (role : option string) :
  Auth.includes l role = true <-> exists r, role = Some r /\ r ∈ l.
Proof.
  destruct role as [r|]; simpl.
  - rewrite bool_decide_eq_true. split; [eauto|]. by intros (? & [= <-] & ?).
  - split; [done|]. by intros (? & ? & _).
Qed.

(** [ProtectedRoute] shows the protected content exactly when the context
    has finished loading, holds a user, and either no role is required or
    the user's role is one of those required; a user without a role passes
    only a route that requires none. Without a user it redirects to
    [redirectTo], "/login" when not given, never to "/unauthorized"; while
    the context is loading it decides nothing. *)
Theorem protected_route_access
    (allowedRoles : option (list string)) (redirectTo : option string)
    (ctx : Auth.AuthContext) :
  (Auth.ProtectedRoute allowedRoles redirectTo ctx = Auth.Outlet <->
   Auth.loading ctx = false /\
   exists role, Auth.user ctx = Some role /\
     (default [] allowedRoles = [] \/
      exists r, role = Some r /\ r ∈ default [] allowedRoles)) /\
  (Auth.loading ctx = false -> Auth.user ctx = None ->
   Auth.ProtectedRoute allowedRoles redirectTo ctx
     = Auth.Navigate (default "/login" redirectTo)) /\
  (Auth.loading ctx = true ->
   Auth.ProtectedRoute allowedRoles redirectTo ctx = Auth.Loading).
Proof.
  unfold Auth.ProtectedRoute.
  destruct ctx as [user loading]. cbn [Auth.loading Auth.user].
  split; [|split].
  - destruct loading; [split; [done|by intros [? _]]|].
    destruct user as [role|]; cbn [bool_decide decide_rel mjoin option_join negb].
    + rewrite bool_decide_eq_true_2 by eauto. cbn [negb mjoin].
      destruct (default [] allowedRoles) as [|r0 l] eqn:Hl; cbn [length Nat.ltb Nat.leb andb].
      * split; [|done]. intros _. split; [done|]. eauto.
      * change (0 <? S (length l))%nat with true. cbn [andb].
        destruct (Auth.includes (r0 :: l) role) eqn:Hinc; cbn [negb].
        -- apply includes_true in Hinc. split; [|done]. intros _.
           split; [done|]. exists role. eauto.
        -- split; [done|]. intros [_ (role' & [= <-] & [?|Hr])]; [done|].
           apply includes_true in Hr. congruence.
    + rewrite bool_decide_eq_false_2 by (by intros [? ?]). cbn [negb].
      split; [done|]. by intros [_ (? & ? & _)].
  - intros -> ->. by rewrite bool_decide_eq_false_2 by (by intros [? ?]).
  - by intros ->.
Qed.

(** * A read failure in the handler without [catch] *)

Lemma products_read_failure_propagates_witness :
  get_products_id atom_stringify atom_parse (fun _ => Ok sample_product) "42"
      (world_holding "product:42" "{oops" 3600)
    = (Throw "SyntaxError: Unexpected token",
       issue (EGet redis (product_key "42")) (world_holding "product:42" "{oops" 3600)).
Proof.
  apply (products_read_failure_propagates atom_stringify atom_parse
           (fun _ => Ok sample_product) "42" "SyntaxError: Unexpected token"
           (world_holding "product:42" "{oops" 3600)).
  right. split; [reflexivity|]. exists "{oops".
  split; [by vm_compute|]. split; [discriminate|reflexivity].
Defined.

(** * Properties of the authentication middleware *)

Lemma obj_get_set_eq k v o : Guard.obj_get k (Guard.obj_set k v o) = Some v.
Proof.
  induction o as [|[k' v'] o IH]; simpl.
  - by rewrite String.eqb_refl.
  - destruct (String.eqb_spec k' k) as [->|Hne]; simpl.
    + by rewrite String.eqb_refl.
    + by destruct (String.eqb_spec k' k).
Qed.

Lemma obj_get_set_ne k k' v o :
  k <> k' -> Guard.obj_get k (Guard.obj_set k' v o) = Guard.obj_get k o.
Proof.
  intros Hne. induction o as [|[k0 v0] o IH]; simpl.
  - by destruct (String.eqb_spec k' k); [congruence|].
  - destruct (String.eqb_spec k0 k') as [->|Hne0]; simpl.
    + by destruct (String.eqb_spec k' k); [congruence|].
    + by destruct (String.eqb_spec k0 k).
Qed.

Lemma spread_get_other k (source : list (string * option json)) :
  forall target, k ∉ fst <$> source ->
  Guard.obj_get k (Guard.spread target source) = Guard.obj_get k target.
Proof.
  induction source as [|[k0 v0] source IH]; intros target Hk; [done|].
  rewrite fmap_cons, not_elem_of_cons in Hk. destruct Hk as [Hne Hk].
  unfold Guard.spread. simpl. fold (Guard.spread (Guard.obj_set k0 v0 target) source).
  rewrite IH by done. by apply obj_get_set_ne.
Qed.

Lemma spread_get k v (source : list (string * option json)) :
  forall target, NoDup (fst <$> source) -> (k, v) ∈ source ->
  Guard.obj_get k (Guard.spread target source) = Some v.
Proof.
  induction source as [|[k0 v0] source IH]; intros target Hnd Hin.
  - by apply elem_of_nil in Hin.
  - rewrite fmap_cons in Hnd. apply NoDup_cons in Hnd as [Hk0 Hnd].
    unfold Guard.spread. simpl. fold (Guard.spread (Guard.obj_set k0 v0 target) source).
    apply elem_of_cons in Hin as [[= -> ->]|Hin].
    + rewrite spread_get_other by done. apply obj_get_set_eq.
    + by apply IH.
Qed.

Section GuardProperties.

Variable trim : string -> string.
Variable jwt_verify : string -> option string -> Result json.
Variable JWT_SECRET : option string.
Variable User_findById : option json -> Result (option Guard.Doc).

Local Abbreviation authenticateUser :=
  (Guard.authenticateUser trim jwt_verify JWT_SECRET User_findById).

(** [authenticateUser] lets a request through exactly when its cookie holds
    a token that is not blank, the token verifies, and the user that the
    token names is found; then [req.user] is built from that user. In every
    other case it answers 401, with one of three messages; a failure of the
    database is reported as "Invalid or expired token.", like a bad token.  *)
Theorem guard_lets_through_only_verified_users (token : option string) :
  (forall u, authenticateUser token = Guard.Continued u <->
     exists s decoded user,
       token = Some s /\ s <> "" /\ trim s <> "" /\
       jwt_verify s JWT_SECRET = Ok decoded /\
       User_findById (get_field "id" decoded) = Ok (Some user) /\
       u = Guard.req_user user) /\
  ((exists u, authenticateUser token = Guard.Continued u) \/
   authenticateUser token = Guard.unauthorized "Unauthorized. No token provided." \/
   authenticateUser token = Guard.unauthorized "Invalid or expired token." \/
   authenticateUser token = Guard.unauthorized "Unauthorized. User not found.") /\
  (forall s decoded msg,
     token = Some s -> s <> "" -> trim s <> "" ->
     jwt_verify s JWT_SECRET = Ok decoded ->
     User_findById (get_field "id" decoded) = Throw msg ->
     authenticateUser token = Guard.unauthorized "Invalid or expired token.").
Proof.
  unfold Guard.authenticateUser.
  split; [|split].
  - intros u. split.
    + destruct token as [s|]; simpl; [|done].
      destruct (String.eqb_spec s "") as [->|Hs]; simpl; [done|].
      destruct (String.eqb_spec (trim s) "") as [?|Ht]; [done|].
      destruct (jwt_verify s JWT_SECRET) as [decoded|] eqn:Hv; [|done].
      destruct (User_findById _) as [[user|]|] eqn:Hu; try done.
      intros [= <-]. exists s, decoded, user. done.
    + intros (s & decoded & user & -> & Hs & Ht & Hv & Hu & ->). simpl.
      destruct (String.eqb_spec s ""); [done|]. simpl.
      destruct (String.eqb_spec (trim s) ""); [done|].
      by rewrite Hv, Hu.
  - destruct (_ || _); [auto|].
    destruct (jwt_verify _ _); [|auto].
    destruct (User_findById _) as [[user|]|]; eauto.
  - intros s decoded msg -> Hs Ht Hv Hu. simpl.
    destruct (String.eqb_spec s ""); [done|]. simpl.
    destruct (String.eqb_spec (trim s) ""); [done|].
    by rewrite Hv, Hu.
Qed.

End GuardProperties.

(** Whatever [user.toObject()] holds travels on [req.user]: each of its
    properties is a property of [req.user] with the same value, so a
    property named [id] or [role] of the document replaces the one the
    middleware computed; the computed [id] and [role] remain only when the
    document has no property of that name. *)
Theorem req_user_carries_the_document
    (user : Guard.Doc) (object : list (string * option json)) :
  Guard.doc_toObject user = Some object ->
  NoDup (fst <$> object) ->
  (forall k v, (k, v) ∈ object -> Guard.obj_get k (Guard.req_user user) = Some v) /\
  ("role" ∉ fst <$> object ->
   Guard.obj_get "role" (Guard.req_user user) = Some (Guard.doc_roleName user)) /\
  ("id" ∉ fst <$> object ->
   forall s, Guard.doc_id user = Some s -> s <> "" ->
   Guard.obj_get "id" (Guard.req_user user) = Some (Some (JStr s))).
Proof.
  intros Hobj Hnd. unfold Guard.req_user. rewrite Hobj. cbn [default from_option id].
  split; [|split].
  - intros k v Hin. by apply spread_get.
  - intros Hno. by rewrite spread_get_other.
  - intros Hno s Hs Hne. rewrite spread_get_other by done.
    rewrite Hs. simpl. by destruct (String.eqb_spec s "").
Qed.

Lemma guard_lets_through_only_verified_users_witness :
  Guard.authenticateUser (fun s => s) (fun _ _ => Ok (JObj [("id", JStr "u1")])) None
      (fun _ => Throw "pool destroyed") (Some "header.payload.signature")
    = Guard.unauthorized "Invalid or expired token.".
Proof.
  apply (guard_lets_through_only_verified_users (fun s => s)
           (fun _ _ => Ok (JObj [("id", JStr "u1")])) None
           (fun _ => Throw "pool destroyed") (Some "header.payload.signature"))
    with (s := "header.payload.signature") (decoded := JObj [("id", JStr "u1")])
         (msg := "pool destroyed").
  - reflexivity.
  - discriminate.
  - discriminate.
  - reflexivity.
  - reflexivity.
Defined.

Lemma req_user_carries_the_document_witness :
  Guard.obj_get "role"
    (Guard.req_user
       (Guard.mkDoc (Some "u1") (Some "u1") (Some (JStr "viewer"))
          (Some [("roleName", Some (JStr "viewer")); ("role", Some (JStr "admin"));
                 ("password", Some (JStr "$2b$10$hash"))])))
    = Some (Some (JStr "admin")) /\
  Guard.obj_get "password"
    (Guard.req_user
       (Guard.mkDoc (Some "u1") (Some "u1") (Some (JStr "viewer"))
          (Some [("roleName", Some (JStr "viewer")); ("role", Some (JStr "admin"));
                 ("password", Some (JStr "$2b$10$hash"))])))
    = Some (Some (JStr "$2b$10$hash")).
Proof.
  destruct (req_user_carries_the_document
              (Guard.mkDoc (Some "u1") (Some "u1") (Some (JStr "viewer"))
                 (Some [("roleName", Some (JStr "viewer")); ("role", Some (JStr "admin"));
                        ("password", Some (JStr "$2b$10$hash"))]))
              [("roleName", Some (JStr "viewer")); ("role", Some (JStr "admin"));
               ("password", Some (JStr "$2b$10$hash"))])
    as (H & _).
  - reflexivity.
  - apply (bool_decide_unpack _). by vm_compute.
  - split; apply H; apply list_elem_of_In; simpl; auto.
Defined.
